(** * House-Price-Prediction: the request validator, the feature engineer and
    the prediction handler of [server/app.py], and the training-time feature
    engineer of [server/train_and_save_model.py], as Rocq functions.

    Conventions of the embedding.
    - A float64 (and a Python int flowing through pandas) is an exact rational
      or one of [+inf], [-inf], [nan]; rounding is not modelled.
    - A Python [dict] read from JSON is a [gmap string jvalue].
    - A pandas [DataFrame] is an ordered list of labelled columns; labels may
      repeat, as they may in pandas.
    - Code that can raise returns a [result]; the handler's log is an explicit
      list of events.
    - The wall clock is an explicit argument wherever the code calls
      [datetime.now()]. *)

From Stdlib Require Import ZArith QArith Qround Qabs Lqa.
From Stdlib Require Import Ascii DecimalString.
From stdpp Require Import gmap strings list fin_maps.

Local Open Scope Q_scope.

(** ** Numbers *)

Module Float.

(** float64 values. *)
Inductive f64 : Type :=
| Fin (q : Q)
| PInf
| NInf
| NaN.

Definition of_Z (z : Z) : f64 := Fin (inject_Z z).
Definition of_bool (b : bool) : f64 := if b then Fin 1 else Fin 0.

Definition Qltb (a b : Q) : bool := negb (Qle_bool b a).

(** [x < y], [x <= y], [x > y] with IEEE semantics: any comparison with
    [nan] is false. *)
Definition ltb (x y : f64) : bool :=
  match x, y with
  | NaN, _ | _, NaN => false
  | Fin a, Fin b => Qltb a b
  | NInf, NInf => false
  | NInf, _ => true
  | PInf, _ => false
  | Fin _, PInf => true
  | Fin _, NInf => false
  end.

Definition leb (x y : f64) : bool :=
  match x, y with
  | NaN, _ | _, NaN => false
  | Fin a, Fin b => Qle_bool a b
  | NInf, _ => true
  | _, PInf => true
  | _, _ => false
  end.

Definition gtb (x y : f64) : bool := ltb y x.

Definition neg (x : f64) : f64 :=
  match x with
  | Fin a => Fin (- a)
  | PInf => NInf
  | NInf => PInf
  | NaN => NaN
  end.

Definition add (x y : f64) : f64 :=
  match x, y with
  | NaN, _ | _, NaN => NaN
  | Fin a, Fin b => Fin (a + b)
  | PInf, NInf | NInf, PInf => NaN
  | PInf, _ | _, PInf => PInf
  | NInf, _ | _, NInf => NInf
  end.

Definition sub (x y : f64) : f64 := add x (neg y).

(** numpy division: a finite value over zero is an infinity of the
    numerator's sign, [0/0] and [inf/inf] are [nan]; nothing raises. *)
Definition div (x y : f64) : f64 :=
  match x, y with
  | NaN, _ | _, NaN => NaN
  | Fin a, Fin b =>
      if Qeq_bool b 0 then
        (if Qeq_bool a 0 then NaN else if Qltb 0 a then PInf else NInf)
      else Fin (a / b)
  | Fin _, _ => Fin 0
  | PInf, Fin b => if Qltb b 0 then NInf else PInf
  | NInf, Fin b => if Qltb b 0 then PInf else NInf
  | _, _ => NaN
  end.

Definition is_inf (x : f64) : bool :=
  match x with PInf | NInf => true | _ => false end.

(** Truncation toward zero, the value of [astype(int)] on a finite float. *)
Definition Qtrunc (q : Q) : Z := Z.quot (Qnum q) (Zpos (Qden q)).

End Float.

Import Float.

(** ** JSON values, exceptions *)

(** A value of the parsed request body.  [json.loads] yields Python ints of
    any size for integer literals and floats (including [NaN] and
    [Infinity]) for the others; arrays and objects are kept opaque, no code
    path looks inside them. *)
Inductive jvalue : Type :=
| JNull
| JBool (b : bool)
| JInt (z : Z)
| JFloat (x : f64)
| JStr (s : string)
| JComposite.

Inductive exn_class : Type :=
| ValueError
| TypeError
| OverflowError
| IndexError
| KeyError.

Record exn : Type := Exn { exn_kind : exn_class; exn_text : string }.

(** [str(e)] *)
Definition str_exn (e : exn) : string := exn_text e.

Inductive result (A : Type) : Type :=
| Ok (a : A)
| Raise (e : exn).
Arguments Ok {A} a.
Arguments Raise {A} e.

#[global] Instance result_ret : MRet result := fun A a => Ok a.
#[global] Instance result_bind : MBind result := fun A B k m =>
  match m with
  | Ok a => k a
  | Raise e => Raise e
  end.

Definition key_error {A : Type} (k : string) : result A :=
  Raise (Exn KeyError ("'" +:+ k +:+ "'")).

(** Decimal rendering of a Python int inside an f-string. *)
Definition str_int (z : Z) : string := NilZero.string_of_int (Z.to_int z).

(** [sep.join(l)] *)
Fixpoint join (sep : string) (l : list string) : string :=
  match l with
  | [] => ""
  | [x] => x
  | x :: rest => x +:+ sep +:+ join sep rest
  end.

(** [needle in hay] on strings *)
Fixpoint contains (needle hay : string) : bool :=
  String.prefix needle hay ||
  match hay with
  | EmptyString => false
  | String _ rest => contains needle rest
  end.


(** ** The request validator ([predict], lines 119-162 of app.py) *)

Definition required_fields : list string :=
  ["bedrooms"; "bathrooms"; "living_area"; "lot_area"; "floors";
   "waterfront"; "views"; "condition"; "grade"; "house_area";
   "basement_area"; "built_year"; "renovation_year"; "latitude";
   "longitude"; "living_area_renovated"; "lot_area_renovated";
   "schools_nearby"; "airport_distance"].

(** The [validations] dict, in insertion order, which is the order in which
    the loop visits it. *)
Definition validations : list (string * (Z * Z)) :=
  [("bedrooms", (0, 20)%Z);
   ("bathrooms", (0, 20)%Z);
   ("living_area", (100, 50000)%Z);
   ("lot_area", (100, 1000000)%Z);
   ("floors", (1, 10)%Z);
   ("waterfront", (0, 1)%Z);
   ("views", (0, 10)%Z);
   ("condition", (1, 10)%Z);
   ("grade", (1, 15)%Z);
   ("house_area", (100, 50000)%Z);
   ("basement_area", (0, 10000)%Z);
   ("built_year", (1800, 2024)%Z);
   ("renovation_year", (0, 2024)%Z);
   ("schools_nearby", (0, 50)%Z);
   ("airport_distance", (0, 500)%Z)].

(** [data[field] == ''] *)
Definition is_empty_str (v : jvalue) : bool :=
  match v with
  | JStr "" => true
  | _ => false
  end.

(** [field not in data or data[field] == ''] *)
Definition is_missing (data : gmap string jvalue) (field : string) : bool :=
  match data !! field with
  | None => true
  | Some v => is_empty_str v
  end.

Definition missing_fields (data : gmap string jvalue) : list string :=
  List.filter (is_missing data) required_fields.

(** A Python int converts to a float when it rounds (half to even) to a
    finite double, that is when its magnitude is below [2^1024 - 2^970]. *)
Definition int_fits_float (z : Z) : bool :=
  (Z.abs z <? 2 ^ 1024 - 2 ^ 970)%Z.

(** Outcome of the range loop: every field passed, the loop returned a 400
    message, or an exception left the loop for the handler's outer [except]. *)
Inductive check : Type :=
| Pass
| Reject (msg : string)
| Escape (e : exn).

Definition out_of_range_msg (field : string) (min_val max_val : Z) : string :=
  field +:+ " must be between " +:+ str_int min_val +:+ " and " +:+ str_int max_val.

Definition not_a_number_msg (field : string) : string :=
  "Invalid " +:+ field +:+ " value. Must be a number.".

(** A float lies in the closed range [[lo, hi]]: it is finite and between
    the two bounds. *)
Definition within (x : f64) (lo hi : Z) : Prop :=
  exists q, x = Fin q /\ inject_Z lo <= q /\ q <= inject_Z hi.

Section Validator.

(** Python's [float(s)] on a [str]: the parsed value, or [None] for the
    [ValueError] it raises. *)
Variable py_float_str : string -> option f64.

(** [float(v)] *)
Definition py_float (v : jvalue) : result f64 :=
  match v with
  | JNull => Raise (Exn TypeError "float() argument must be a string or a real number, not 'NoneType'")
  | JBool b => Ok (of_bool b)
  | JInt z =>
      if int_fits_float z then Ok (of_Z z)
      else Raise (Exn OverflowError "int too large to convert to float")
  | JFloat x => Ok x
  | JStr s =>
      match py_float_str s with
      | Some x => Ok x
      | None => Raise (Exn ValueError ("could not convert string to float: '" +:+ s +:+ "'"))
      end
  | JComposite => Raise (Exn TypeError "float() argument must be a string or a real number, not 'list'")
  end.

(** One iteration of the loop over [validations.items()]. *)
Definition check_field (data : gmap string jvalue) (field : string)
    (min_val max_val : Z) : check :=
  match data !! field with
  | None => Escape (Exn KeyError ("'" +:+ field +:+ "'"))
  | Some v =>
      match py_float v with
      | Ok value =>
          if leb (of_Z min_val) value && leb value (of_Z max_val) then Pass
          else Reject (out_of_range_msg field min_val max_val)
      | Raise e =>
          match exn_kind e with
          | ValueError | TypeError => Reject (not_a_number_msg field)
          | _ => Escape e
          end
      end
  end.

Fixpoint check_ranges (data : gmap string jvalue)
    (table : list (string * (Z * Z))) : check :=
  match table with
  | [] => Pass
  | (field, (min_val, max_val)) :: rest =>
      match check_field data field min_val max_val with
      | Pass => check_ranges data rest
      | stop => stop
      end
  end.


(** The value converts to a float outside [[lo, hi]]. *)
Definition out_of_range (v : jvalue) (lo hi : Z) : Prop :=
  exists x, py_float v = Ok x /\ ~ within x lo hi.

(** The value converts to a float inside [[lo, hi]]. *)
Definition in_range (v : jvalue) (lo hi : Z) : Prop :=
  exists x, py_float v = Ok x /\ within x lo hi.

Definition passes (data : gmap string jvalue) (c : string * (Z * Z)) : Prop :=
  check_field data (fst c) (fst (snd c)) (snd (snd c)) = Pass.

End Validator.

(** ** Data frames *)

(** A pandas column: numeric, object (raw Python values) or categorical
    (the categories and, per row, the index of the row's category or [None]
    for a missing one). *)
Inductive series : Type :=
| SNum (xs : list f64)
| SObj (vs : list jvalue)
| SCat (categories : list string) (codes : list (option nat)).

Definition series_len (s : series) : nat :=
  match s with
  | SNum xs => length xs
  | SObj vs => length vs
  | SCat _ codes => length codes
  end.

Module Frame.

(** Columns in order; pandas allows a label to occur more than once. *)
Definition frame : Type := list (string * series).

Definition columns (df : frame) : list string := fst <$> df.

Definition nrows (df : frame) : nat :=
  match df with
  | [] => 0
  | (_, s) :: _ => series_len s
  end.

Definition labelled (name : string) (c : string * series) : bool :=
  String.eqb (fst c) name.

(** [name in df.columns] *)
Definition has_col (name : string) (df : frame) : bool :=
  existsb (labelled name) df.

(** [df[name]] for a single label: the column, [KeyError] when absent. *)
Definition get_col (name : string) (df : frame) : result series :=
  match List.find (labelled name) df with
  | Some c => Ok (snd c)
  | None => key_error name
  end.

(** [df[name] = s]: overwrite the columns carrying the label, or append. *)
Definition set_col (name : string) (s : series) (df : frame) : frame :=
  if has_col name df
  then (fun c => if labelled name c then (fst c, s) else c) <$> df
  else df ++ [(name, s)].

(** [df[names]] for a list of labels: for each label in turn every column
    that carries it, [KeyError] for a label no column carries. *)
Definition select (names : list string) (df : frame) : result frame :=
  picked ← mapM (fun name =>
              match List.filter (labelled name) df with
              | [] => key_error name
              | cs => Ok cs
              end) names;
  Ok (concat picked).

(** [df.drop(names, axis=1)] when every name is a label of [df]. *)
Definition drop_cols (names : list string) (df : frame) : frame :=
  List.filter (fun c => negb (existsb (String.eqb (fst c)) names)) df.

(** [df.rename(columns=mapping)] *)
Definition rename (mapping : list (string * string)) (df : frame) : frame :=
  (fun c => match List.find (fun m => String.eqb (fst m) (fst c)) mapping with
            | Some m => (snd m, snd c)
            | None => c
            end) <$> df.

(** The numeric values of a column used in arithmetic. *)
Definition get_num (name : string) (df : frame) : result (list f64) :=
  s ← get_col name df;
  match s with
  | SNum xs => Ok xs
  | _ => Raise (Exn TypeError ("unsupported operand type(s) for column " +:+ name))
  end.

(** The numeric value in row [i] of the first column labelled [name]. *)
Definition cell (name : string) (i : nat) (df : frame) : option f64 :=
  match List.find (labelled name) df with
  | Some (_, SNum xs) => xs !! i
  | _ => None
  end.

End Frame.

Import Frame.

(** ** The pandas and numpy operations the two feature engineers call *)

Module Pandas.

(** [pd.DataFrame([data])]: one row, one column per key; numbers and
    booleans give a numeric column, anything else an object column. *)
Definition infer_series (v : jvalue) : series :=
  match v with
  | JBool b => SNum [of_bool b]
  | JInt z => SNum [of_Z z]
  | JFloat x => SNum [x]
  | _ => SObj [v]
  end.

Definition DataFrame (data : gmap string jvalue) : frame :=
  (fun kv => (fst kv, infer_series (snd kv))) <$> map_to_list data.

Section ToNumeric.

(** [pd.to_numeric(.., errors='coerce')] on a [str] cell: the parsed
    number, [nan] when pandas cannot parse it. *)
Variable pd_numeric_str : string -> f64.

Definition coerce (v : jvalue) : f64 :=
  match v with
  | JNull | JComposite => NaN
  | JBool b => of_bool b
  | JInt z => of_Z z
  | JFloat x => x
  | JStr s => pd_numeric_str s
  end.

Definition to_numeric (s : series) : series :=
  match s with
  | SObj vs => SNum (coerce <$> vs)
  | _ => s
  end.

(** A column after [to_numeric]. *)
Definition numeric_column (c : string * series) : string * series :=
  (fst c, to_numeric (snd c)).

End ToNumeric.

(** [np.where(cond, a, b)] *)
Fixpoint np_where (cond : list bool) (a b : list f64) : list f64 :=
  match cond, a, b with
  | c :: cond', x :: a', y :: b' => (if c then x else y) :: np_where cond' a' b'
  | _, _, _ => []
  end.

(** [s.astype(int)] on a numeric column: truncation, and
    [IntCastingNaNError] (a [ValueError]) on [nan] or an infinity. *)
Definition astype_int (xs : list f64) : result (list f64) :=
  mapM (fun x =>
          match x with
          | Fin q => Ok (of_Z (Qtrunc q))
          | _ => Raise (Exn ValueError "Cannot convert non-finite values (NA or inf) to integer")
          end) xs.

Definition Qmin (a b : Q) : Q := if Qle_bool a b then a else b.
Definition Qmax (a b : Q) : Q := if Qle_bool a b then b else a.

(** The finite entries of a column ([nan] is skipped by [min] and [max]). *)
Definition finite_values (xs : list f64) : list Q :=
  omap (fun x => match x with Fin q => Some q | _ => None end) xs.

(** [np.linspace(start, stop, n + 1, endpoint=True)] *)
Definition linspace (start stop : Q) (n : nat) : list Q :=
  let step := (stop - start) / inject_Z (Z.of_nat n) in
  ((fun i => inject_Z (Z.of_nat i) * step + start) <$> seq 0 n) ++ [stop].

(** [bins.searchsorted(x, side='left')]: the first position whose edge is
    not below [x]. *)
Fixpoint searchsorted_left (bins : list Q) (x : Q) : nat :=
  match bins with
  | [] => 0
  | b :: rest => if Qltb b x then S (searchsorted_left rest x) else 0
  end.

(** The bin edges of [pd.cut(x, bins=n)], from the column's own minimum
    and maximum ([_nbins_to_bins] with [right=True]). *)
Definition nbins_to_bins (mn mx : Q) (n : nat) : list Q :=
  if Qeq_bool mn mx then
    let mn' := mn - (if negb (Qeq_bool mn 0) then (1 # 1000) * Qabs mn else 1 # 1000) in
    let mx' := mx + (if negb (Qeq_bool mx 0) then (1 # 1000) * Qabs mx else 1 # 1000) in
    linspace mn' mx' n
  else
    let adj := (mx - mn) * (1 # 1000) in
    match linspace mn mx n with
    | [] => []
    | b0 :: rest => (b0 - adj) :: rest
    end.

(** The category code of one value ([_bins_to_cuts]): [nan] and values
    outside the edges have none. *)
Definition bin_code (bins : list Q) (x : f64) : option nat :=
  match x with
  | Fin q =>
      let ids := searchsorted_left bins q in
      if (ids =? 0)%nat || (ids =? length bins)%nat then None
      else Some (ids - 1)%nat
  | _ => None
  end.

(** [pd.cut(x, bins=n, labels=labels)] *)
Definition cut (xs : list f64) (n : nat) (labels : list string) : result series :=
  match xs with
  | [] => Raise (Exn ValueError "Cannot cut empty array")
  | _ =>
      if existsb is_inf xs then
        Raise (Exn ValueError "cannot specify integer `bins` when input data contains infinity")
      else
        match finite_values xs with
        | [] => Raise (Exn ValueError "Bin edges must be unique")
        | v :: vs =>
            let mn := foldl Qmin v vs in
            let mx := foldl Qmax v vs in
            let bins := nbins_to_bins mn mx n in
            Ok (SCat labels (bin_code bins <$> xs))
        end
  end.

(** One-hot columns of one categorical column, first level dropped
    ([_get_dummies_1d] with [drop_first=True]): a column per remaining
    category, [1] in the rows of that category.  Both callers encode
    columns made by [cut] only; the model raises for any other column. *)
Definition dummies_1d (prefix : string) (s : series) : result frame :=
  match s with
  | SCat levels codes =>
      Ok (drop 1 (imap (fun i level =>
                          (prefix +:+ "_" +:+ level,
                           SNum ((fun c => of_bool (bool_decide (c = Some i))) <$> codes)))
                       levels))
  | _ => Raise (Exn TypeError ("column " +:+ prefix +:+ " is not categorical"))
  end.

(** [pd.get_dummies(df, columns=cols, drop_first=True)]: the other columns
    of [df], then the one-hot columns of each encoded column in turn.
    Labels are not made unique. *)
Definition get_dummies (df : frame) (cols : list string) : result frame :=
  encoded ← mapM (fun c => s ← get_col c df; dummies_1d c s) cols;
  Ok (drop_cols cols df ++ concat encoded).

End Pandas.

Import Pandas.

(** ** The wall clock *)

(** What [datetime.now()] returns. *)
Record datetime : Type := Datetime {
  year : Z;
  month : Z;
  day : Z;
  hour : Z;
  minute : Z;
  second : Z
}.

(** ** Feature engineering at inference time
    ([create_features_from_input], app.py) *)

Definition numeric_fields : list string :=
  ["bedrooms"; "bathrooms"; "living_area"; "lot_area"; "floors";
   "waterfront"; "views"; "condition"; "grade"; "house_area";
   "basement_area"; "built_year"; "renovation_year"; "latitude";
   "longitude"; "living_area_renovated"; "lot_area_renovated";
   "schools_nearby"; "airport_distance"].

Definition categorical_columns : list string :=
  ["condition_category"; "grade_category"; "views_category"].

(** Lines 52-76 of app.py and 67-93 of train_and_save_model.py are the same
    statements but for the training-only [price_per_sqft]; each function
    below spells its own copy out. *)

Section Inference.

Variable pd_numeric_str : string -> f64.

(** The loaded [preprocessing_info['feature_names']]. *)
Variable feature_names : list string.

(** [if field in df.columns: df[field] = pd.to_numeric(df[field], errors='coerce')] *)
Definition convert_field (df : frame) (field : string) : frame :=
  if has_col field df then
    match get_col field df with
    | Ok s => set_col field (to_numeric pd_numeric_str s) df
    | Raise _ => df
    end
  else df.

(** [if feature not in df_encoded.columns: df_encoded[feature] = 0] *)
Definition ensure_feature (df_encoded : frame) (feature : string) : frame :=
  if has_col feature df_encoded then df_encoded
  else set_col feature (SNum (replicate (nrows df_encoded) (Fin 0))) df_encoded.

(** Lines 36-50: the one-row frame of the request, numeric fields
    converted. *)
Definition input_frame (data : gmap string jvalue) : frame :=
  let df := DataFrame data in
  foldl convert_field df numeric_fields.

(** Lines 52-76: the derived features and the one-hot encoding. *)
Definition engineer_frame (now : datetime) (df : frame) : result frame :=
  (* Create age feature *)
  let current_year := of_Z (year now) in
  built_year ← get_num "built_year" df;
  let df := set_col "age" (SNum (sub current_year <$> built_year)) df in
  renovation_year ← get_num "renovation_year" df;
  age ← get_num "age" df;
  let df := set_col "years_since_renovation"
              (SNum (np_where ((fun x => gtb x (Fin 0)) <$> renovation_year)
                              (sub current_year <$> renovation_year)
                              age)) df in
  (* Binary features *)
  basement_area ← get_num "basement_area" df;
  let df := set_col "has_basement"
              (SNum ((fun x => of_bool (gtb x (Fin 0))) <$> basement_area)) df in
  renovation_year ← get_num "renovation_year" df;
  let df := set_col "is_renovated"
              (SNum ((fun x => of_bool (gtb x (Fin 0))) <$> renovation_year)) df in
  waterfront ← get_num "waterfront" df;
  has_waterfront ← astype_int waterfront;
  let df := set_col "has_waterfront" (SNum has_waterfront) df in
  (* Ratio features *)
  living_area ← get_num "living_area" df;
  lot_area ← get_num "lot_area" df;
  let df := set_col "living_to_lot_ratio"
              (SNum (zip_with div living_area ((fun x => add x (Fin 1)) <$> lot_area))) df in
  basement_area ← get_num "basement_area" df;
  house_area ← get_num "house_area" df;
  let df := set_col "basement_to_house_ratio"
              (SNum (zip_with div basement_area ((fun x => add x (Fin 1)) <$> house_area))) df in
  (* Categorical binning and encoding *)
  condition ← get_num "condition" df;
  condition_category ← cut condition 3 ["Poor"; "Average"; "Good"];
  let df := set_col "condition_category" condition_category df in
  grade ← get_num "grade" df;
  grade_category ← cut grade 3 ["Low"; "Medium"; "High"];
  let df := set_col "grade_category" grade_category df in
  views ← get_num "views" df;
  views_category ← cut views 3 ["None"; "Some"; "Excellent"];
  let df := set_col "views_category" views_category df in
  (* Convert categorical variables to dummy variables *)
  get_dummies df categorical_columns.

(** Lines 34-76: everything up to and including the one-hot encoding. *)
Definition engineer_input (now : datetime) (data : gmap string jvalue) : result frame :=
  engineer_frame now (input_frame data).

(** Lines 78-86: the alignment with the training-time feature list. *)
Definition align (df_encoded : frame) : result frame :=
  let df_encoded := foldl ensure_feature df_encoded feature_names in
  select feature_names df_encoded.

Definition create_features_from_input (now : datetime)
    (data : gmap string jvalue) : result frame :=
  df_encoded ← engineer_input now data;
  align df_encoded.

End Inference.

(** ** The engineered frame of a one-row request *)

(** The one-hot columns of a row whose three values all sit in the middle
    bin. *)
Definition middle_dummies : frame :=
  [("condition_category_Average", SNum [Fin 1]);
   ("condition_category_Good", SNum [Fin 0]);
   ("grade_category_Medium", SNum [Fin 1]);
   ("grade_category_High", SNum [Fin 0]);
   ("views_category_Some", SNum [Fin 1]);
   ("views_category_Excellent", SNum [Fin 0])].

(** The columns [engineer_frame] adds to a one-row frame before the
    encoding. *)
Definition with_derived (now : datetime)
    (built reno basement living lot house : f64) (w : Q) (df : frame) : frame :=
  let current_year := of_Z (year now) in
  set_col "views_category" (SCat ["None"; "Some"; "Excellent"] [Some 1%nat])
  (set_col "grade_category" (SCat ["Low"; "Medium"; "High"] [Some 1%nat])
  (set_col "condition_category" (SCat ["Poor"; "Average"; "Good"] [Some 1%nat])
  (set_col "basement_to_house_ratio" (SNum [div basement (add house (Fin 1))])
  (set_col "living_to_lot_ratio" (SNum [div living (add lot (Fin 1))])
  (set_col "has_waterfront" (SNum [of_Z (Qtrunc w)])
  (set_col "is_renovated" (SNum [of_bool (gtb reno (Fin 0))])
  (set_col "has_basement" (SNum [of_bool (gtb basement (Fin 0))])
  (set_col "years_since_renovation"
     (SNum [if gtb reno (Fin 0) then sub current_year reno else sub current_year built])
  (set_col "age" (SNum [sub current_year built]) df))))))))).



(** ** Feature engineering at training time
    ([create_features] and the first lines of [main],
    train_and_save_model.py) *)

Module Training.

Definition column_mapping : list (string * string) :=
  [("number of bedrooms", "bedrooms");
   ("number of bathrooms", "bathrooms");
   ("living area", "living_area");
   ("lot area", "lot_area");
   ("number of floors", "floors");
   ("waterfront present", "waterfront");
   ("number of views", "views");
   ("condition of the house", "condition");
   ("grade of the house", "grade");
   ("Area of the house(excluding basement)", "house_area");
   ("Area of the basement", "basement_area");
   ("Built Year", "built_year");
   ("Renovation Year", "renovation_year");
   ("Postal Code", "postal_code");
   ("Lattitude", "latitude");
   ("Longitude", "longitude");
   ("living_area_renov", "living_area_renovated");
   ("lot_area_renov", "lot_area_renovated");
   ("Number of schools nearby", "schools_nearby");
   ("Distance from the airport", "airport_distance");
   ("Price", "price")].

Definition feature_columns : list string :=
  ["bedrooms"; "bathrooms"; "living_area"; "lot_area"; "floors";
   "waterfront"; "views"; "condition"; "grade"; "house_area";
   "basement_area"; "age"; "years_since_renovation"; "latitude";
   "longitude"; "living_area_renovated"; "lot_area_renovated";
   "schools_nearby"; "airport_distance"; "has_basement"; "is_renovated";
   "has_waterfront"; "living_to_lot_ratio"; "basement_to_house_ratio"].

Definition create_features (now : datetime) (df : frame) : result (frame * list string) :=
  (* Rename columns *)
  let df := rename column_mapping df in
  (* Create age feature *)
  let current_year := of_Z (year now) in
  built_year ← get_num "built_year" df;
  let df := set_col "age" (SNum (sub current_year <$> built_year)) df in
  renovation_year ← get_num "renovation_year" df;
  age ← get_num "age" df;
  let df := set_col "years_since_renovation"
              (SNum (np_where ((fun x => gtb x (Fin 0)) <$> renovation_year)
                              (sub current_year <$> renovation_year)
                              age)) df in
  (* Binary features *)
  basement_area ← get_num "basement_area" df;
  let df := set_col "has_basement"
              (SNum ((fun x => of_bool (gtb x (Fin 0))) <$> basement_area)) df in
  renovation_year ← get_num "renovation_year" df;
  let df := set_col "is_renovated"
              (SNum ((fun x => of_bool (gtb x (Fin 0))) <$> renovation_year)) df in
  waterfront ← get_num "waterfront" df;
  has_waterfront ← astype_int waterfront;
  let df := set_col "has_waterfront" (SNum has_waterfront) df in
  (* Ratio features *)
  living_area ← get_num "living_area" df;
  lot_area ← get_num "lot_area" df;
  let df := set_col "living_to_lot_ratio"
              (SNum (zip_with div living_area ((fun x => add x (Fin 1)) <$> lot_area))) df in
  basement_area ← get_num "basement_area" df;
  house_area ← get_num "house_area" df;
  let df := set_col "basement_to_house_ratio"
              (SNum (zip_with div basement_area ((fun x => add x (Fin 1)) <$> house_area))) df in
  price ← get_num "price" df;
  living_area ← get_num "living_area" df;
  let df := set_col "price_per_sqft"
              (SNum (zip_with div price ((fun x => add x (Fin 1)) <$> living_area))) df in
  (* Categorical binning *)
  condition ← get_num "condition" df;
  condition_category ← cut condition 3 ["Poor"; "Average"; "Good"];
  let df := set_col "condition_category" condition_category df in
  grade ← get_num "grade" df;
  grade_category ← cut grade 3 ["Low"; "Medium"; "High"];
  let df := set_col "grade_category" grade_category df in
  views ← get_num "views" df;
  views_category ← cut views 3 ["None"; "Some"; "Excellent"];
  let df := set_col "views_category" views_category df in
  (* Convert categorical variables to dummy variables *)
  df_encoded ← get_dummies df categorical_columns;
  (* Add dummy variables *)
  let dummy_columns :=
    List.filter (fun col => existsb (fun cat => contains cat col) categorical_columns)
                (columns df_encoded) in
  let feature_columns := feature_columns ++ dummy_columns in
  (* Filter to existing columns *)
  let available_features :=
    List.filter (fun col => has_col col df_encoded) feature_columns in
  Ok (df_encoded, available_features).

(** [main], lines 269-272: the feature matrix the scaler and the model
    are fitted on, and the feature list that is persisted. *)
Definition feature_matrix (now : datetime) (df : frame) : result (frame * list string) :=
  processed ← create_features now df;
  X ← select (snd processed) (fst processed);
  Ok (X, snd processed).

End Training.

(** The frame [create_features] hands to [pd.get_dummies]: the renamed
    frame with the eleven columns lines 67-89 assign, given the columns
    read on the way. *)
Definition training_derived (now : datetime)
    (built reno basement has_waterfront living lot house price : list f64)
    (ccat gcat vcat : series) (df : frame) : frame :=
  let current_year := of_Z (year now) in
  set_col "views_category" vcat
  (set_col "grade_category" gcat
  (set_col "condition_category" ccat
  (set_col "price_per_sqft"
     (SNum (zip_with div price ((fun x => add x (Fin 1)) <$> living)))
  (set_col "basement_to_house_ratio"
     (SNum (zip_with div basement ((fun x => add x (Fin 1)) <$> house)))
  (set_col "living_to_lot_ratio"
     (SNum (zip_with div living ((fun x => add x (Fin 1)) <$> lot)))
  (set_col "has_waterfront" (SNum has_waterfront)
  (set_col "is_renovated" (SNum ((fun x => of_bool (gtb x (Fin 0))) <$> reno))
  (set_col "has_basement" (SNum ((fun x => of_bool (gtb x (Fin 0))) <$> basement))
  (set_col "years_since_renovation"
     (SNum (np_where ((fun x => gtb x (Fin 0)) <$> reno)
                     (sub current_year <$> reno)
                     (sub current_year <$> built)))
  (set_col "age" (SNum (sub current_year <$> built)) df)))))))))).

(** The columns of the data set [create_features] computes with, and the
    raw columns of its feature list it only passes on. *)
Definition computed_from : list string :=
  ["built_year"; "renovation_year"; "basement_area"; "waterfront";
   "living_area"; "lot_area"; "house_area"; "price"; "condition"; "grade";
   "views"].

Definition passed_through : list string :=
  ["bedrooms"; "bathrooms"; "floors"; "latitude"; "longitude";
   "living_area_renovated"; "lot_area_renovated"; "schools_nearby";
   "airport_distance"].

(** [main], line 273: the target the model is fitted on. *)
Definition target (df_processed : frame) : result series :=
  get_col "price" df_processed.

(** The two one-hot columns [pd.get_dummies] makes of a column of three
    categories with [drop_first=True]: the indicators of the second and of
    the third category. *)
Definition indicator (level : nat) (codes : list (option nat)) : series :=
  SNum ((fun c => of_bool (bool_decide (c = Some level))) <$> codes).

Definition training_dummies (condition grade views : list (option nat)) : frame :=
  [("condition_category_Average", indicator 1 condition);
   ("condition_category_Good", indicator 2 condition);
   ("grade_category_Medium", indicator 1 grade);
   ("grade_category_High", indicator 2 grade);
   ("views_category_Some", indicator 1 views);
   ("views_category_Excellent", indicator 2 views)].

(** The frame [create_features_from_input] hands to [pd.get_dummies]: the
    frame of the request with the ten columns lines 54-73 of app.py assign,
    given the columns read on the way. *)
Definition inference_derived (now : datetime)
    (built reno basement has_waterfront living lot house : list f64)
    (ccat gcat vcat : series) (df : frame) : frame :=
  let current_year := of_Z (year now) in
  set_col "views_category" vcat
  (set_col "grade_category" gcat
  (set_col "condition_category" ccat
  (set_col "basement_to_house_ratio"
     (SNum (zip_with div basement ((fun x => add x (Fin 1)) <$> house)))
  (set_col "living_to_lot_ratio"
     (SNum (zip_with div living ((fun x => add x (Fin 1)) <$> lot)))
  (set_col "has_waterfront" (SNum has_waterfront)
  (set_col "is_renovated" (SNum ((fun x => of_bool (gtb x (Fin 0))) <$> reno))
  (set_col "has_basement" (SNum ((fun x => of_bool (gtb x (Fin 0))) <$> basement))
  (set_col "years_since_renovation"
     (SNum (np_where ((fun x => gtb x (Fin 0)) <$> reno)
                     (sub current_year <$> reno)
                     (sub current_year <$> built)))
  (set_col "age" (SNum (sub current_year <$> built)) df))))))))).

(** The fields of a request the derived features are computed from, and
    the derived features. *)
Definition derived_from : list string :=
  ["built_year"; "renovation_year"; "basement_area"; "waterfront";
   "living_area"; "lot_area"; "house_area"].

Definition derived_columns : list string :=
  ["age"; "years_since_renovation"; "has_basement"; "is_renovated";
   "has_waterfront"; "living_to_lot_ratio"; "basement_to_house_ratio"].




(** ** The prediction handler ([predict], app.py) *)

Record success_body : Type := SuccessBody {
  predicted_price : Q;
  r2_score : f64;
  mae : f64;
  rmse : f64;
  mape : f64;
  features_used : nat;
  model_type : string
}.

(** The JSON object of a response: [{"error": ..}] or the success object. *)
Inductive body : Type :=
| ErrorBody (error : string)
| PredictionBody (b : success_body).

Record response : Type := Response { status : Z; payload : body }.

Inductive stage : Type :=
| CreateFeatures
| ScalerTransform
| ModelPredict.

(** What the handler does besides answering: the calls into the pipeline,
    in order, and what it writes to the log. *)
Inductive event : Type :=
| Call (s : stage)
| LogPredictionMade (prediction : Q)
| LogError (msg : string)
| PrintTraceback.

(** Python's [round(x, ndigits)] on a float. *)
Definition round_half_even (q : Q) : Z :=
  let f := Qfloor q in
  let r := q - inject_Z f in
  if Qltb r (1 # 2) then f
  else if Qltb (1 # 2) r then (f + 1)%Z
  else if Z.even f then f else (f + 1)%Z.

Definition py_round (x : f64) (ndigits : nat) : f64 :=
  match x with
  | Fin q =>
      let scale := inject_Z (10 ^ Z.of_nat ndigits) in
      Fin (inject_Z (round_half_even (q * scale)) / scale)
  | _ => x
  end.

Definition bad_request (msg : string) : response :=
  {| status := 400; payload := ErrorBody msg |}.

(** The outer [except Exception as e] of [predict]. *)
Definition internal_error (e : exn) (done : list event) : response * list event :=
  ({| status := 500; payload := ErrorBody ("Internal server error: " +:+ str_exn e) |},
   done ++ [LogError ("Prediction error: " +:+ str_exn e); PrintTraceback]).




Section Service.

Variable py_float_str : string -> option f64.
Variable pd_numeric_str : string -> f64.

(** The artifacts loaded at start-up. *)
Variable feature_names : list string.
Variable preprocessing_model_type : option string.
Variable metrics : gmap string f64.

(** [scaler.transform] and [model.predict], as fitted: opaque library
    objects.  A fitted random forest returns averages of training prices,
    hence finite numbers. *)
Variable scaler_transform : frame -> result (list (list f64)).
Variable model_predict : list (list f64) -> result (list Q).

(** [metrics[key]] *)
Definition metric (key : string) : result f64 :=
  match metrics !! key with
  | Some x => Ok x
  | None => key_error key
  end.

Definition success (prediction : Q) : result success_body :=
  r2 ← metric "r2_score";
  mae ← metric "mae";
  rmse ← metric "rmse";
  Ok {| predicted_price := prediction;
        r2_score := py_round r2 4;
        mae := py_round mae 2;
        rmse := py_round rmse 2;
        mape := py_round (default (Fin 0) (metrics !! "mape")) 2;
        features_used := length feature_names;
        model_type := default "RandomForestRegressor" preprocessing_model_type |}.

(** [f"Missing required fields: {', '.join(missing_fields)}"] *)
Definition missing_msg (data : gmap string jvalue) : string :=
  "Missing required fields: " +:+ join ", " (missing_fields data).

(** Lines 164-168: feature engineer, aligner and scaler in sequence. *)
Definition scaled_features (now : datetime) (data : gmap string jvalue)
    : result (list (list f64)) :=
  X ← create_features_from_input pd_numeric_str feature_names now data;
  scaler_transform X.

(** Lines 164-192, after validation has passed. *)
Definition run_pipeline (now : datetime) (data : gmap string jvalue)
    : response * list event :=
  match create_features_from_input pd_numeric_str feature_names now data with
  | Raise e => internal_error e [Call CreateFeatures]
  | Ok X =>
      match scaler_transform X with
      | Raise e => internal_error e [Call CreateFeatures; Call ScalerTransform]
      | Ok X_scaled =>
          let calls := [Call CreateFeatures; Call ScalerTransform; Call ModelPredict] in
          match model_predict X_scaled with
          | Raise e => internal_error e calls
          | Ok [] => internal_error (Exn IndexError "index 0 is out of bounds for axis 0 with size 0") calls
          | Ok (prediction :: _) =>
              (* Ensure prediction is reasonable *)
              let prediction := if Qltb prediction 0 then 0 else prediction in
              let logged := calls ++ [LogPredictionMade prediction] in
              match success prediction with
              | Raise e => internal_error e logged
              | Ok b => ({| status := 200; payload := PredictionBody b |}, logged)
              end
          end
      end
  end.

Definition predict (now : datetime) (data : gmap string jvalue)
    : response * list event :=
  if decide (data = ∅) then (bad_request "No data provided", [])
  else
    (* Check for missing fields *)
    match missing_fields data with
    | _ :: _ =>
        (bad_request (missing_msg data), [])
    | [] =>
        (* Validate numeric ranges *)
        match check_ranges py_float_str data validations with
        | Reject msg => (bad_request msg, [])
        | Escape e => internal_error e []
        | Pass => run_pipeline now data
        end
    end.

(** The request passes validation: a body, no field missing, every checked
    field a number within its range. *)
Definition validated (data : gmap string jvalue) : Prop :=
  data <> ∅ /\ missing_fields data = [] /\
  check_ranges py_float_str data validations = Pass.

(** One of the three pipeline stages raises [e]. *)
Definition stage_raises (now : datetime) (data : gmap string jvalue) (e : exn) : Prop :=
  create_features_from_input pd_numeric_str feature_names now data = Raise e \/
  (exists X, create_features_from_input pd_numeric_str feature_names now data = Ok X /\ scaler_transform X = Raise e) \/
  (exists X X_scaled, create_features_from_input pd_numeric_str feature_names now data = Ok X /\ scaler_transform X = Ok X_scaled /\
                      model_predict X_scaled = Raise e).

End Service.

(** ** Concrete artifacts and requests used in the examples *)

Module Sklearn.

(** A fitted [StandardScaler]: per-feature mean and scale. *)
Record StandardScaler : Type := { mean_ : list Q; scale_ : list Q }.

(** Row [i] of a feature matrix as floats; [check_array] refuses
    non-numeric columns and infinities and lets [nan] through. *)
Definition matrix_row (i : nat) (X : frame) : result (list f64) :=
  mapM (fun c =>
          match snd c with
          | SNum xs =>
              match xs !! i with
              | Some x =>
                  if is_inf x
                  then Raise (Exn ValueError "Input X contains infinity or a value too large for dtype('float64').")
                  else Ok x
              | None => Raise (Exn IndexError "row out of range")
              end
          | _ => Raise (Exn ValueError ("could not convert column " +:+ fst c +:+ " to float"))
          end) X.

(** [scaler.transform(X)]: [(x - mean) / scale] per feature, [ValueError]
    when [X] does not have as many columns as the scaler was fitted on. *)
Definition transform (sc : StandardScaler) (X : frame) : result (list (list f64)) :=
  if negb (length X =? length (mean_ sc))%nat then
    Raise (Exn ValueError
             ("X has " +:+ str_int (Z.of_nat (length X))
              +:+ " features, but StandardScaler is expecting "
              +:+ str_int (Z.of_nat (length (mean_ sc))) +:+ " features as input."))
  else
    rows ← mapM (fun i => matrix_row i X) (seq 0 (nrows X));
    Ok ((fun row =>
           zip_with (fun x ms => div (sub x (Fin (fst ms))) (Fin (snd ms)))
                    row (zip (mean_ sc) (scale_ sc))) <$> rows).

End Sklearn.

Module Sample.

(** A reader of unsigned decimal integers, standing for both string
    conversions in the examples. *)
Definition digit_value (c : ascii) : option Z :=
  let n := Z.of_nat (nat_of_ascii c) in
  if (48 <=? n)%Z && (n <=? 57)%Z then Some (n - 48)%Z else None.

Fixpoint digits_value (s : string) (acc : Z) : option Z :=
  match s with
  | EmptyString => Some acc
  | String c rest =>
      match digit_value c with
      | Some d => digits_value rest (10 * acc + d)%Z
      | None => None
      end
  end.

Definition float_of_digits (s : string) : option f64 :=
  match s with
  | EmptyString => None
  | _ => of_Z <$> digits_value s 0
  end.

Definition numeric_of_digits (s : string) : f64 :=
  default NaN (float_of_digits s).

(** The end-to-end example request of the specification. *)
Definition request : gmap string jvalue :=
  list_to_map
    [("bedrooms", JInt 3); ("bathrooms", JInt 2); ("living_area", JInt 1800);
     ("lot_area", JInt 5000); ("floors", JInt 1); ("waterfront", JInt 0);
     ("views", JInt 0); ("condition", JInt 3); ("grade", JInt 7);
     ("house_area", JInt 1800); ("basement_area", JInt 0);
     ("built_year", JInt 1990); ("renovation_year", JInt 0);
     ("latitude", JFloat (Fin (475 # 10)));
     ("longitude", JFloat (Fin (-1222 # 10)));
     ("living_area_renovated", JInt 1800); ("lot_area_renovated", JInt 5000);
     ("schools_nearby", JInt 2); ("airport_distance", JInt 15)].

(** The feature list a training run persists: the 24 base features and the
    six one-hot columns. *)
Definition feature_names : list string :=
  Training.feature_columns ++
  ["condition_category_Average"; "condition_category_Good";
   "grade_category_Medium"; "grade_category_High";
   "views_category_Some"; "views_category_Excellent"].

Definition metrics : gmap string f64 :=
  list_to_map
    [("r2_score", Fin (87654321 # 100000000)); ("mae", Fin (6543215 # 100));
     ("rmse", Fin (12345678 # 100)); ("mape", Fin (1234 # 100))].

(** A scaler fitted on [n] features that leaves each of them as it is. *)
Definition unit_scaler (n : nat) : Sklearn.StandardScaler :=
  {| Sklearn.mean_ := replicate n 0; Sklearn.scale_ := replicate n 1 |}.

(** A regressor that answers the same price for every input. *)
Definition constant_model (price : Q) (X : list (list f64)) : result (list Q) :=
  Ok ((fun _ => price) <$> X).

(** A regressor whose [predict] raises. *)
Definition failing_model (text : string) (X : list (list f64)) : result (list Q) :=
  Raise (Exn ValueError text).

Definition noon (y : Z) : datetime := Datetime y 6 15 12 0 0.

(** A two-row training set, with the headers of Housing.csv.  Its first row
    is the house of [request], sold for 350000. *)
Definition housing : frame :=
  [("id", SNum [Fin 1; Fin 2]);
   ("number of bedrooms", SNum [Fin 3; Fin 4]);
   ("number of bathrooms", SNum [Fin 2; Fin 3]);
   ("living area", SNum [Fin 1800; Fin 3200]);
   ("lot area", SNum [Fin 5000; Fin 9000]);
   ("number of floors", SNum [Fin 1; Fin 2]);
   ("waterfront present", SNum [Fin 0; Fin 1]);
   ("number of views", SNum [Fin 0; Fin 4]);
   ("condition of the house", SNum [Fin 3; Fin 5]);
   ("grade of the house", SNum [Fin 7; Fin 11]);
   ("Area of the house(excluding basement)", SNum [Fin 1800; Fin 2400]);
   ("Area of the basement", SNum [Fin 0; Fin 800]);
   ("Built Year", SNum [Fin 1990; Fin 2005]);
   ("Renovation Year", SNum [Fin 0; Fin 2015]);
   ("Postal Code", SNum [Fin 122003; Fin 122004]);
   ("Lattitude", SNum [Fin (475 # 10); Fin (476 # 10)]);
   ("Longitude", SNum [Fin (-1222 # 10); Fin (-1221 # 10)]);
   ("living_area_renov", SNum [Fin 1800; Fin 3000]);
   ("lot_area_renov", SNum [Fin 5000; Fin 8500]);
   ("Number of schools nearby", SNum [Fin 2; Fin 3]);
   ("Distance from the airport", SNum [Fin 15; Fin 60]);
   ("Price", SNum [Fin 350000; Fin 1250000])].

(** The request a client sends for the house of row [i] of a training
    set: the nineteen raw fields with the row's values. *)
Definition record_of_row (df : frame) (i : nat) : gmap string jvalue :=
  list_to_map
    (omap (fun f => (fun x => (f, JFloat x)) <$> cell f i (rename Training.column_mapping df))
          required_fields).

(** The success body the sample artifacts give for a price. *)
Definition body_with_price (price : Q) : success_body :=
  {| predicted_price := price;
     r2_score := Fin (8765 # 10000);
     mae := Fin (6543215 # 100);
     rmse := Fin (12345678 # 100);
     mape := Fin (1234 # 100);
     features_used := 30;
     model_type := "RandomForestRegressor" |}.

(** The handler with the sample artifacts. *)
Definition serve (model : list (list f64) -> result (list Q)) :=
  predict float_of_digits numeric_of_digits feature_names
          (Some "RandomForestRegressor") metrics
          (Sklearn.transform (unit_scaler 30)) model.

End Sample.

(** [request] with neither [bedrooms] nor [grade], and a [built_year]
    outside its range. *)
Definition request_without_two : gmap string jvalue :=
  <["built_year" := JInt 1700]> (delete "bedrooms" (delete "grade" Sample.request)).

(** [request] with the empty string for [grade]. *)
Definition request_with_empty_grade : gmap string jvalue :=
  <["grade" := JStr ""]> Sample.request.

(** The engineered record of the sample request. *)
Definition sample_engineered : frame :=
  match engineer_input Sample.numeric_of_digits (Sample.noon 2024) Sample.request with
  | Ok df => df
  | Raise _ => []
  end.

(** Equality of two floats as numbers. *)
Definition f64_eqb (x y : f64) : bool :=
  match x, y with
  | Fin a, Fin b => Qeq_bool a b
  | PInf, PInf | NInf, NInf => true
  | _, _ => false
  end.

(** The features on which row [i] of the training matrix and the one-row
    inference matrix disagree. *)
Definition disagreements (names : list string) (X_train : frame) (i : nat)
    (X_infer : frame) : list string :=
  List.filter (fun name =>
                 match cell name i X_train, cell name 0 X_infer with
                 | Some x, Some y => negb (f64_eqb x y)
                 | _, _ => true
                 end) names.


(** The processed frame and the feature list of a training run on the
    two-row set. *)
Definition sample_training : frame * list string :=
  match Training.create_features (Sample.noon 2024) Sample.housing with
  | Ok processed => processed
  | Raise _ => ([], [])
  end.

(** The two-row set without its bedrooms column, and without its rows. *)
Definition housing_without_bedrooms : frame :=
  drop_cols ["number of bedrooms"] Sample.housing.

Definition housing_without_rows : frame :=
  (fun c => (fst c, SNum [])) <$> Sample.housing.

(** [request] with an integer of 401 digits for [bedrooms]. *)
Definition request_with_huge_bedrooms : gmap string jvalue :=
  <["bedrooms" := JInt (10 ^ 400)]> Sample.request.

(** The aligned and the scaled features of the sample request. *)
Definition sample_features : frame :=
  match create_features_from_input Sample.numeric_of_digits Sample.feature_names
          (Sample.noon 2024) Sample.request with
  | Ok X => X
  | Raise _ => []
  end.

Definition sample_scaled : list (list f64) :=
  match Sklearn.transform (Sample.unit_scaler 30) sample_features with
  | Ok X_scaled => X_scaled
  | Raise _ => []
  end.

(** The sample metrics without the mean absolute error. *)
Definition metrics_without_mae : gmap string f64 := delete "mae" Sample.metrics.

(** * Properties *)

(** ** The model on small inputs *)

Example div_guard_example : div (Fin 1800) (add (Fin 5000) (Fin 1)) = Fin (1800 / (5000 + 1)).
Proof. reflexivity. Qed.

Example str_int_example : str_int 1000000 = "1000000" /\ str_int (-5) = "-5" /\ str_int 0 = "0".
Proof. repeat split; reflexivity. Qed.

Example join_example : join ", " ["bedrooms"; "grade"] = "bedrooms, grade".
Proof. reflexivity. Qed.

Example cut_three_rows :
  cut [Fin 0; Fin 2; Fin 4] 3 ["None"; "Some"; "Excellent"]
  = Ok (SCat ["None"; "Some"; "Excellent"] [Some 0; Some 1; Some 2])%nat.
Proof. vm_compute. reflexivity. Qed.

Example cut_one_row :
  cut [Fin 0] 3 ["None"; "Some"; "Excellent"]
  = Ok (SCat ["None"; "Some"; "Excellent"] [Some 1%nat]).
Proof. vm_compute. reflexivity. Qed.

Example sample_request_succeeds :
  Sample.serve (Sample.constant_model 350000) (Sample.noon 2024) Sample.request
  = ({| status := 200; payload := PredictionBody (Sample.body_with_price 350000) |},
     [Call CreateFeatures; Call ScalerTransform; Call ModelPredict;
      LogPredictionMade 350000]).
Proof. vm_compute. reflexivity. Qed.


(** ** Strings *)







(** ** Rational comparisons *)

Lemma Qltb_true (a b : Q) : Qltb a b = true <-> a < b.
Proof.
  unfold Qltb. rewrite negb_true_iff. split.
  - intros H. apply Qnot_le_lt. intros Hle.
    apply Qle_bool_iff in Hle. congruence.
  - intros H. destruct (Qle_bool b a) eqn:E; [|reflexivity].
    apply Qle_bool_iff in E. exfalso. exact (Qlt_not_le _ _ H E).
Qed.

Lemma Qltb_false (a b : Q) : Qltb a b = false <-> b <= a.
Proof.
  unfold Qltb. rewrite negb_false_iff. apply Qle_bool_iff.
Qed.

(** ** Bucketing a one-row column *)

Lemma single_value_spread (q : Q) :
  0 < (if negb (Qeq_bool q 0) then (1 # 1000) * Qabs q else 1 # 1000).
Proof.
  destruct (Qeq_bool q 0) eqn:E; simpl; [reflexivity|].
  apply Qeq_bool_neq in E.
  destruct (Qlt_le_dec q 0) as [Hneg|Hpos].
  - rewrite (Qabs_neg q) by lra. lra.
  - rewrite (Qabs_pos q) by exact Hpos.
    assert (0 < q).
    { apply Qle_lteq in Hpos. destruct Hpos as [H|H]; [exact H|].
      symmetry in H. contradiction. }
    lra.
Qed.

(** With the edges spread evenly around [q], [q] sits in the middle bin. *)
Lemma single_row_edges (q d : Q) :
  0 < d ->
  bin_code (linspace (q - d) (q + d) 3) (Fin q) = Some 1%nat.
Proof.
  intros Hd. unfold linspace, bin_code, Qdiv.
  cbn [seq fmap list_fmap app searchsorted_left Z.of_nat].
  change (/ inject_Z (Z.of_nat 3)) with (1 # 3).
  change (inject_Z (Z.of_nat 0)) with 0.
  change (inject_Z (Z.of_nat 1)) with 1.
  change (inject_Z (Z.of_nat 2)) with (2 # 1).
  assert (H0 : Qltb (0 * ((q + d - (q - d)) * (1 # 3)) + (q - d)) q = true)
    by (apply Qltb_true; lra).
  assert (H1 : Qltb (1 * ((q + d - (q - d)) * (1 # 3)) + (q - d)) q = true)
    by (apply Qltb_true; lra).
  assert (H2 : Qltb ((2 # 1) * ((q + d - (q - d)) * (1 # 3)) + (q - d)) q = false)
    by (apply Qltb_false; lra).
  rewrite H0, H1, H2. reflexivity.
Qed.

(** [pd.cut] of a one-row column with three bins: whatever the value, the
    edges are built around it and it falls in the middle bin. *)
Lemma cut_single_row (q : Q) (labels : list string) :
  cut [Fin q] 3 labels = Ok (SCat labels [Some 1%nat]).
Proof.
  unfold cut, nbins_to_bins.
  cbn [existsb is_inf orb finite_values omap list_omap foldl fmap list_fmap].
  assert (Hqq : Qeq_bool q q = true) by (apply Qeq_bool_iff; reflexivity).
  rewrite Hqq. rewrite (single_row_edges q _ (single_value_spread q)).
  reflexivity.
Qed.

(** ** Lookup in frames *)

Lemma labelled_eq (k : string) (c : string * series) :
  labelled k c = true <-> fst c = k.
Proof. unfold labelled. apply String.eqb_eq. Qed.

Lemma has_col_find (k : string) (df : frame) :
  has_col k df = match List.find (labelled k) df with Some _ => true | None => false end.
Proof.
  unfold has_col. induction df as [|c df IH]; simpl; [reflexivity|].
  destruct (labelled k c); [reflexivity | exact IH].
Qed.

Lemma find_set_col_eq (k : string) (s : series) (df : frame) :
  List.find (labelled k) (set_col k s df) = Some (k, s).
Proof.
  unfold set_col. rewrite has_col_find.
  induction df as [|c df IH]; simpl.
  - unfold labelled. simpl. rewrite String.eqb_refl. reflexivity.
  - destruct (labelled k c) eqn:Hc; simpl.
    + unfold labelled at 1. simpl. fold (labelled k c). rewrite Hc.
      apply labelled_eq in Hc. rewrite Hc. reflexivity.
    + destruct (List.find (labelled k) df) eqn:Hf; simpl; rewrite Hc; exact IH.
Qed.

Lemma find_set_col_ne (k k' : string) (s : series) (df : frame) :
  String.eqb k' k = false ->
  List.find (labelled k) (set_col k' s df) = List.find (labelled k) df.
Proof.
  intros Hne. unfold set_col.
  destruct (has_col k' df).
  - induction df as [|c df IH]; simpl; [reflexivity|].
    destruct (labelled k' c) eqn:Hc.
    + apply labelled_eq in Hc.
      assert (H1 : labelled k (fst c, s) = false) by (unfold labelled; simpl; rewrite Hc; exact Hne).
      assert (H2 : labelled k c = false) by (unfold labelled; rewrite Hc; exact Hne).
      rewrite H1, H2. exact IH.
    + destruct (labelled k c); [reflexivity | exact IH].
  - induction df as [|c df IH]; simpl.
    + unfold labelled. simpl. rewrite Hne. reflexivity.
    + destruct (labelled k c); [reflexivity | exact IH].
Qed.

Lemma get_num_find (k : string) (df : frame) (xs : list f64) :
  List.find (labelled k) df = Some (k, SNum xs) -> get_num k df = Ok xs.
Proof. intros H. unfold get_num, get_col. rewrite H. reflexivity. Qed.

Lemma get_num_set_col_eq (k : string) (xs : list f64) (df : frame) :
  get_num k (set_col k (SNum xs) df) = Ok xs.
Proof. apply get_num_find, find_set_col_eq. Qed.

Lemma get_num_set_col_ne (k k' : string) (s : series) (df : frame) :
  String.eqb k' k = false -> get_num k (set_col k' s df) = get_num k df.
Proof.
  intros Hne. unfold get_num, get_col. rewrite (find_set_col_ne k k' s df Hne). reflexivity.
Qed.

Lemma get_col_set_col_eq (k : string) (s : series) (df : frame) :
  get_col k (set_col k s df) = Ok s.
Proof. unfold get_col. rewrite find_set_col_eq. reflexivity. Qed.

Lemma get_col_set_col_ne (k k' : string) (s : series) (df : frame) :
  String.eqb k' k = false -> get_col k (set_col k' s df) = get_col k df.
Proof. intros Hne. unfold get_col. rewrite (find_set_col_ne k k' s df Hne). reflexivity. Qed.

Lemma cell_set_col_eq (k : string) (xs : list f64) (i : nat) (df : frame) :
  cell k i (set_col k (SNum xs) df) = xs !! i.
Proof. unfold cell. rewrite find_set_col_eq. reflexivity. Qed.

Lemma cell_set_col_ne (k k' : string) (s : series) (i : nat) (df : frame) :
  String.eqb k' k = false -> cell k i (set_col k' s df) = cell k i df.
Proof. intros Hne. unfold cell. rewrite (find_set_col_ne k k' s df Hne). reflexivity. Qed.

Lemma find_drop_cols (k : string) (cols : list string) (df : frame) :
  existsb (String.eqb k) cols = false ->
  List.find (labelled k) (drop_cols cols df) = List.find (labelled k) df.
Proof.
  intros Hk. unfold drop_cols. induction df as [|c df IH]; simpl; [reflexivity|].
  destruct (labelled k c) eqn:Hc.
  - apply labelled_eq in Hc. rewrite Hc, Hk. simpl.
    unfold labelled at 1. rewrite Hc, String.eqb_refl. reflexivity.
  - destruct (negb (existsb (String.eqb (fst c)) cols)); simpl; [rewrite Hc|]; exact IH.
Qed.

Lemma cell_get_dummies_kept (k : string) (i : nat) (cols : list string)
    (df rest : frame) (x : f64) :
  existsb (String.eqb k) cols = false ->
  cell k i df = Some x ->
  cell k i (drop_cols cols df ++ rest) = Some x.
Proof.
  intros Hk. unfold cell. rewrite <- (find_drop_cols k cols df Hk).
  destruct (List.find (labelled k) (drop_cols cols df)) as [c|] eqn:Hf; [|discriminate].
  intros H.
  assert (Happ : List.find (labelled k) (drop_cols cols df ++ rest) = Some c).
  { clear H. revert Hf. generalize (drop_cols cols df) as l.
    induction l as [|d l IH]; simpl; [discriminate|].
    destruct (labelled k d); [auto | exact IH]. }
  rewrite Happ. exact H.
Qed.

(** Rewriting lookups through a chain of column assignments. *)
Ltac lookup_cols :=
  repeat first
    [ rewrite get_num_set_col_eq
    | rewrite get_num_set_col_ne by reflexivity
    | rewrite get_col_set_col_eq
    | rewrite get_col_set_col_ne by reflexivity ].

Ltac feed H := lookup_cols; rewrite H; cbn [mbind result_bind].

Ltac find_cells :=
  repeat first
    [ rewrite cell_set_col_eq
    | rewrite cell_set_col_ne by reflexivity ].

Ltac in_table := repeat first [ left; reflexivity | right ].

(** ** The feature engineer on a request *)

Lemma find_DataFrame (k : string) (data : gmap string jvalue) :
  List.find (labelled k) (DataFrame data)
  = (fun v => (k, infer_series v)) <$> (data !! k).
Proof.
  unfold DataFrame. rewrite <- (list_to_map_to_list data) at 2.
  generalize (map_to_list data) as l.
  induction l as [|[k0 v0] l IH]; simpl.
  - rewrite lookup_empty. reflexivity.
  - unfold labelled at 1. simpl. destruct (String.eqb k0 k) eqn:E.
    + apply String.eqb_eq in E. subst k0. rewrite lookup_insert_eq. reflexivity.
    + apply String.eqb_neq in E. rewrite lookup_insert_ne by exact E. exact IH.
Qed.

Lemma astype_int_single (w : Q) : astype_int [Fin w] = Ok [of_Z (Qtrunc w)].
Proof. reflexivity. Qed.

(** On a one-row frame with finite waterfront, condition, grade and views,
    the feature engineer succeeds, and its one-hot columns are those of the
    middle bins whatever the three values are. *)
Lemma engineer_frame_one_row (now : datetime) (df0 : frame)
    (built reno basement living lot house : f64) (w c g n : Q) :
  get_num "built_year" df0 = Ok [built] ->
  get_num "renovation_year" df0 = Ok [reno] ->
  get_num "basement_area" df0 = Ok [basement] ->
  get_num "waterfront" df0 = Ok [Fin w] ->
  get_num "living_area" df0 = Ok [living] ->
  get_num "lot_area" df0 = Ok [lot] ->
  get_num "house_area" df0 = Ok [house] ->
  get_num "condition" df0 = Ok [Fin c] ->
  get_num "grade" df0 = Ok [Fin g] ->
  get_num "views" df0 = Ok [Fin n] ->
  engineer_frame now df0
  = Ok (drop_cols categorical_columns
          (with_derived now built reno basement living lot house w df0)
        ++ middle_dummies).
Proof.
  intros Gb Gr Gba Gw Gli Glo Gh Gc Gg Gv.
  unfold engineer_frame. cbv zeta.
  feed Gb. feed Gr. lookup_cols. cbn [mbind result_bind].
  feed Gba. feed Gr. feed Gw.
  rewrite astype_int_single. cbn [mbind result_bind].
  feed Gli. feed Glo. feed Gba. feed Gh.
  feed Gc. rewrite cut_single_row. cbn [mbind result_bind].
  feed Gg. rewrite cut_single_row. cbn [mbind result_bind].
  feed Gv. rewrite cut_single_row. cbn [mbind result_bind].
  unfold get_dummies, categorical_columns.
  cbn [mapM mbind result_bind mret result_ret].
  lookup_cols.
  reflexivity.
Qed.

Section InputFrame.

Variable pd_numeric_str : string -> f64.

Local Abbreviation numeric := (coerce pd_numeric_str).

Lemma to_numeric_infer (v : jvalue) :
  to_numeric pd_numeric_str (infer_series v) = SNum [numeric v].
Proof. destruct v; reflexivity. Qed.

Lemma to_numeric_idem (s : series) :
  to_numeric pd_numeric_str (to_numeric pd_numeric_str s) = to_numeric pd_numeric_str s.
Proof. destruct s; reflexivity. Qed.

Lemma find_convert_field (k f : string) (df : frame) :
  List.find (labelled k) (convert_field pd_numeric_str df f)
  = if String.eqb f k then numeric_column pd_numeric_str <$> List.find (labelled k) df
    else List.find (labelled k) df.
Proof.
  unfold convert_field, get_col. rewrite has_col_find.
  destruct (String.eqb f k) eqn:E.
  - apply String.eqb_eq in E. subst f.
    destruct (List.find (labelled k) df) as [c|] eqn:Hf; [|rewrite Hf; reflexivity].
    rewrite find_set_col_eq. simpl. unfold numeric_column.
    apply find_some in Hf. destruct Hf as [_ Hc]. apply labelled_eq in Hc.
    rewrite Hc. reflexivity.
  - destruct (List.find (labelled f) df) as [c|]; [|reflexivity].
    apply find_set_col_ne, E.
Qed.

Lemma find_converted (k : string) (fields : list string) (df : frame) :
  List.find (labelled k) (foldl (convert_field pd_numeric_str) df fields)
  = if existsb (fun f => String.eqb f k) fields
    then numeric_column pd_numeric_str <$> List.find (labelled k) df
    else List.find (labelled k) df.
Proof.
  revert df. induction fields as [|f fields IH]; intros df; simpl; [reflexivity|].
  rewrite IH, find_convert_field.
  destruct (String.eqb f k); simpl; [|reflexivity].
  destruct (existsb _ fields); [|reflexivity].
  destruct (List.find (labelled k) df) as [c|]; [|reflexivity].
  simpl. unfold numeric_column. simpl. rewrite to_numeric_idem. reflexivity.
Qed.

(** After the conversion loop a numeric field of the request is a numeric
    column holding the converted value. *)
Lemma find_input_frame (k : string) (data : gmap string jvalue) (v : jvalue) :
  existsb (fun f => String.eqb f k) numeric_fields = true ->
  data !! k = Some v ->
  List.find (labelled k) (input_frame pd_numeric_str data) = Some (k, SNum [numeric v]).
Proof.
  intros Hk Hv. unfold input_frame. cbv zeta.
  rewrite find_converted, Hk, find_DataFrame, Hv. simpl.
  unfold numeric_column. simpl. rewrite to_numeric_infer. reflexivity.
Qed.

End InputFrame.

(** ** The validator *)

Lemma range_test_spec (x : f64) (lo hi : Z) :
  leb (of_Z lo) x && leb x (of_Z hi) = true <-> within x lo hi.
Proof.
  unfold within, of_Z. split.
  - intros H. apply andb_true_iff in H. destruct H as [H1 H2].
    destruct x as [q| | |]; simpl in H1, H2; try discriminate.
    exists q. split; [reflexivity|]. split; apply Qle_bool_iff; assumption.
  - intros (q & -> & H1 & H2). simpl.
    apply andb_true_iff. split; apply Qle_bool_iff; assumption.
Qed.




Section ValidatorProperties.

Variable py_float_str : string -> option f64.

Local Abbreviation to_float := (py_float py_float_str).
Local Abbreviation field_check := (check_field py_float_str).
Local Abbreviation range_check := (check_ranges py_float_str).

Lemma check_field_pass (data : gmap string jvalue) (f : string) (lo hi : Z) :
  field_check data f lo hi = Pass <->
  exists v, data !! f = Some v /\ in_range py_float_str v lo hi.
Proof.
  unfold check_field, in_range. split.
  - destruct (data !! f) as [v|]; [|discriminate].
    destruct (to_float v) as [x|e] eqn:Hx.
    + destruct (leb (of_Z lo) x && leb x (of_Z hi)) eqn:Ht; [|discriminate].
      intros _. exists v. split; [reflexivity|]. exists x. split; [exact Hx|].
      apply range_test_spec, Ht.
    + destruct (exn_kind e); discriminate.
  - intros (v & -> & x & Hx & Hin). rewrite Hx.
    apply range_test_spec in Hin. rewrite Hin. reflexivity.
Qed.



(** The loop stops at the first field that does not pass. *)
Lemma check_ranges_at (data : gmap string jvalue)
    (before after : list (string * (Z * Z))) (f : string) (lo hi : Z) :
  Forall (passes py_float_str data) before ->
  range_check data (before ++ (f, (lo, hi)) :: after)
  = match field_check data f lo hi with
    | Pass => range_check data after
    | stop => stop
    end.
Proof.
  induction 1 as [|[g [l h]] before Hg _ IH]; [reflexivity|].
  simpl. unfold passes in Hg. simpl in Hg. rewrite Hg. exact IH.
Qed.

Lemma check_ranges_pass (data : gmap string jvalue) (table : list (string * (Z * Z))) :
  range_check data table = Pass <-> Forall (passes py_float_str data) table.
Proof.
  induction table as [|[g [l h]] table IH]; simpl.
  - split; [constructor | reflexivity].
  - split.
    + destruct (field_check data g l h) eqn:Hg; try discriminate.
      intros H. constructor; [exact Hg | apply IH, H].
    + intros H. inversion H as [|? ? Hg Ht]; subst.
      unfold passes in Hg. simpl in Hg. rewrite Hg. apply IH, Ht.
Qed.


End ValidatorProperties.

(** ** The handler *)

Section HandlerProperties.

Variable py_float_str : string -> option f64.
Variable pd_numeric_str : string -> f64.
Variable feature_names : list string.
Variable preprocessing_model_type : option string.
Variable metrics : gmap string f64.
Variable scaler_transform : frame -> result (list (list f64)).
Variable model_predict : list (list f64) -> result (list Q).

Local Abbreviation handle :=
  (predict py_float_str pd_numeric_str feature_names preprocessing_model_type
           metrics scaler_transform model_predict).
Local Abbreviation pipeline :=
  (run_pipeline pd_numeric_str feature_names preprocessing_model_type
                metrics scaler_transform model_predict).
Local Abbreviation features := (create_features_from_input pd_numeric_str feature_names).
Local Abbreviation scaled := (scaled_features pd_numeric_str feature_names scaler_transform).

Lemma predict_validated (now : datetime) (data : gmap string jvalue) :
  validated py_float_str data -> handle now data = pipeline now data.
Proof.
  intros (Hne & Hmiss & Hpass). unfold predict.
  destruct (decide (data = ∅)) as [He|_]; [contradiction|].
  rewrite Hmiss, Hpass. reflexivity.
Qed.


Lemma success_price (p : Q) (b : success_body) :
  success feature_names preprocessing_model_type metrics p = Ok b ->
  predicted_price b = p.
Proof.
  unfold success, metric.
  destruct (metrics !! "r2_score"); [|discriminate].
  destruct (metrics !! "mae"); [|discriminate].
  destruct (metrics !! "rmse"); [|discriminate].
  simpl. intros [= <-]. reflexivity.
Qed.

(** The pipeline answers 200 exactly when its three stages and the metrics
    lookups succeed, and then with the clamped prediction. *)
Lemma pipeline_success (now : datetime) (data : gmap string jvalue) (b : success_body) :
  payload (fst (pipeline now data)) = PredictionBody b ->
  exists X X_scaled raw rest,
    features now data = Ok X /\ scaler_transform X = Ok X_scaled /\
    model_predict X_scaled = Ok (raw :: rest) /\
    predicted_price b = (if Qltb raw 0 then 0 else raw).
Proof.
  unfold run_pipeline.
  destruct (features now data) as [X|e] eqn:HX; [|discriminate].
  destruct (scaler_transform X) as [Xs|e] eqn:HXs; [|discriminate].
  destruct (model_predict Xs) as [[|raw rest]|e] eqn:Hm; [discriminate| |discriminate].
  destruct (success _ _ _ _) as [b'|e] eqn:Hs; [|discriminate].
  simpl. intros [= <-]. exists X, Xs, raw, rest.
  split; [reflexivity|]. split; [exact HXs|]. split; [exact Hm|].
  exact (success_price _ _ Hs).
Qed.

(** C2.  Whenever POST /predict answers with a predicted price, the request
    had passed validation, the price is the output of the regressor on the
    scaled features floored at zero: it is never negative, it is exactly 0
    when the regressor's output is negative and it is the regressor's output
    otherwise. *)
Theorem predicted_price_nonnegative (now : datetime) (data : gmap string jvalue)
    (b : success_body) :
  payload (fst (handle now data)) = PredictionBody b ->
  validated py_float_str data /\
  exists X X_scaled raw rest,
    features now data = Ok X /\ scaler_transform X = Ok X_scaled /\
    model_predict X_scaled = Ok (raw :: rest) /\
    0 <= predicted_price b /\
    (raw < 0 -> predicted_price b = 0) /\
    (0 <= raw -> predicted_price b = raw).
Proof.
  intros Hb.
  assert (Hv : validated py_float_str data).
  { revert Hb. unfold predict, validated.
    destruct (decide (data = ∅)) as [He|Hne]; [discriminate|].
    destruct (missing_fields data) as [|f l]; [|discriminate].
    destruct (check_ranges py_float_str data validations) as [|msg|e];
      [| discriminate | discriminate].
    intros _. split; [exact Hne|]. split; reflexivity. }
  split; [exact Hv|].
  rewrite (predict_validated now data Hv) in Hb.
  destruct (pipeline_success now data b Hb) as (X & Xs & raw & rest & HX & HXs & Hraw & Hp).
  exists X, Xs, raw, rest. repeat split; try assumption.
  - rewrite Hp. destruct (Qltb raw 0) eqn:E; [apply Qle_refl|].
    apply Qltb_false, E.
  - intros Hneg. rewrite Hp. apply Qltb_true in Hneg. rewrite Hneg. reflexivity.
  - intros Hpos. rewrite Hp. apply Qltb_false in Hpos. rewrite Hpos. reflexivity.
Qed.

(** C9, as the code has it.  An error raised by the feature engineer, the
    scaler or the regressor for a validated request is caught by the
    handler, which answers 500 with the message "Internal server error: "
    followed by the text of the error, and logs "Prediction error: "
    followed by the same text. *)
Theorem internal_error_reported (now : datetime) (data : gmap string jvalue) (e : exn) :
  validated py_float_str data ->
  stage_raises pd_numeric_str feature_names scaler_transform model_predict now data e ->
  fst (handle now data)
  = {| status := 500; payload := ErrorBody ("Internal server error: " +:+ str_exn e) |}
  /\ In (LogError ("Prediction error: " +:+ str_exn e)) (snd (handle now data)).
Proof.
  intros Hv Hraise. rewrite (predict_validated now data Hv). unfold run_pipeline.
  destruct Hraise as [HX|[(X & HX & HXs)|(X & Xs & HX & HXs & Hm)]].
  - rewrite HX. split; [reflexivity|]. simpl. auto.
  - rewrite HX, HXs. split; [reflexivity|]. simpl. auto.
  - rewrite HX, HXs, Hm. split; [reflexivity|]. simpl. auto.
Qed.

(** C7, as the code has it.  The feature engineer reads the wall clock and
    uses its year only: two runs on the same request whose clocks show the
    same year produce the same scaled vector, and the same response. *)
Theorem pipeline_depends_on_clock_year (now1 now2 : datetime) (data : gmap string jvalue) :
  year now1 = year now2 ->
  scaled now1 data = scaled now2 data /\ handle now1 data = handle now2 data.
Proof.
  intros Hy.
  assert (HX : features now1 data = features now2 data).
  { unfold create_features_from_input, engineer_input, engineer_frame.
    rewrite Hy. reflexivity. }
  split.
  - unfold scaled_features. rewrite HX. reflexivity.
  - unfold predict, run_pipeline. rewrite HX. reflexivity.
Qed.









End HandlerProperties.

(** ** The ratio features *)


Section RatioGuard.

Variable py_float_str : string -> option f64.
Variable pd_numeric_str : string -> f64.

(** Where Python's [float] reads a string as a number, pandas reads the
    same number. *)
Hypothesis conversions_agree :
  forall s x, py_float_str s = Some x -> pd_numeric_str s = x.

Lemma coerce_agrees (v : jvalue) (x : f64) :
  py_float py_float_str v = Ok x -> coerce pd_numeric_str v = x.
Proof.
  destruct v as [|b|z|y|s|]; simpl; try discriminate.
  - intros [= <-]. reflexivity.
  - destruct (int_fits_float z); [|discriminate]. intros [= <-]. reflexivity.
  - intros [= <-]. reflexivity.
  - destruct (py_float_str s) as [y|] eqn:Hs; [|discriminate].
    intros [= <-]. apply conversions_agree, Hs.
Qed.

(** A field of the table, in a validated request, holds a value that both
    conversions read as a finite number within the field's range. *)
Lemma validated_field (data : gmap string jvalue) (f : string) (lo hi : Z) :
  validated py_float_str data ->
  In (f, (lo, hi)) validations ->
  exists v q, data !! f = Some v /\ coerce pd_numeric_str v = Fin q /\
              inject_Z lo <= q /\ q <= inject_Z hi.
Proof.
  intros (_ & _ & Hpass) Hin.
  apply check_ranges_pass in Hpass.
  rewrite Forall_forall in Hpass.
  specialize (Hpass _ (proj2 (list_elem_of_In _ _) Hin)).
  apply check_field_pass in Hpass.
  destruct Hpass as (v & Hv & x & Hx & q & -> & Hlo & Hhi).
  exists v, q. split; [exact Hv|]. split; [|split; assumption].
  apply coerce_agrees, Hx.
Qed.

(** The engineered frame of a validated request, column by column. *)
Lemma engineer_input_validated (now : datetime) (data : gmap string jvalue) :
  validated py_float_str data ->
  exists built reno basement living lot house w,
    engineer_input pd_numeric_str now data
    = Ok (drop_cols categorical_columns
            (with_derived now (Fin built) (Fin reno) (Fin basement)
               (Fin living) (Fin lot) (Fin house) w (input_frame pd_numeric_str data))
          ++ middle_dummies) /\
    cell "living_area" 0 (input_frame pd_numeric_str data) = Some (Fin living) /\
    cell "lot_area" 0 (input_frame pd_numeric_str data) = Some (Fin lot) /\
    cell "basement_area" 0 (input_frame pd_numeric_str data) = Some (Fin basement) /\
    cell "house_area" 0 (input_frame pd_numeric_str data) = Some (Fin house) /\
    100 <= lot /\ 100 <= house.
Proof.
  intros Hv.
  destruct (validated_field data "built_year" 1800 2024 Hv ltac:(in_table))
    as (vb & built & Lb & Nb & _ & _).
  destruct (validated_field data "renovation_year" 0 2024 Hv ltac:(in_table))
    as (vr & reno & Lr & Nr & _ & _).
  destruct (validated_field data "basement_area" 0 10000 Hv ltac:(in_table))
    as (vba & basement & Lba & Nba & _ & _).
  destruct (validated_field data "waterfront" 0 1 Hv ltac:(in_table))
    as (vw & w & Lw & Nw & _ & _).
  destruct (validated_field data "living_area" 100 50000 Hv ltac:(in_table))
    as (vli & living & Lli & Nli & _ & _).
  destruct (validated_field data "lot_area" 100 1000000 Hv ltac:(in_table))
    as (vlo & lot & Llo & Nlo & Hlot & _).
  destruct (validated_field data "house_area" 100 50000 Hv ltac:(in_table))
    as (vh & house & Lh & Nh & Hhouse & _).
  destruct (validated_field data "condition" 1 10 Hv ltac:(in_table))
    as (vc & c & Lc & Nc & _ & _).
  destruct (validated_field data "grade" 1 15 Hv ltac:(in_table))
    as (vg & g & Lg & Ng & _ & _).
  destruct (validated_field data "views" 0 10 Hv ltac:(in_table))
    as (vv & n & Lv & Nv & _ & _).
  pose proof (find_input_frame pd_numeric_str "built_year" data vb eq_refl Lb) as Fb.
  pose proof (find_input_frame pd_numeric_str "renovation_year" data vr eq_refl Lr) as Fr.
  pose proof (find_input_frame pd_numeric_str "basement_area" data vba eq_refl Lba) as Fba.
  pose proof (find_input_frame pd_numeric_str "waterfront" data vw eq_refl Lw) as Fw.
  pose proof (find_input_frame pd_numeric_str "living_area" data vli eq_refl Lli) as Fli.
  pose proof (find_input_frame pd_numeric_str "lot_area" data vlo eq_refl Llo) as Flo.
  pose proof (find_input_frame pd_numeric_str "house_area" data vh eq_refl Lh) as Fh.
  pose proof (find_input_frame pd_numeric_str "condition" data vc eq_refl Lc) as Fc.
  pose proof (find_input_frame pd_numeric_str "grade" data vg eq_refl Lg) as Fg.
  pose proof (find_input_frame pd_numeric_str "views" data vv eq_refl Lv) as Fv.
  rewrite Nb in Fb. rewrite Nr in Fr. rewrite Nba in Fba. rewrite Nw in Fw.
  rewrite Nli in Fli. rewrite Nlo in Flo. rewrite Nh in Fh. rewrite Nc in Fc.
  rewrite Ng in Fg. rewrite Nv in Fv.
  change (inject_Z 100) with 100 in Hlot, Hhouse.
  unfold engineer_input.
  generalize dependent (input_frame pd_numeric_str data).
  intros df0 Fb Fr Fba Fw Fli Flo Fh Fc Fg Fv.
  exists built, reno, basement, living, lot, house, w.
  split.
  { apply (engineer_frame_one_row now df0 (Fin built) (Fin reno) (Fin basement)
             (Fin living) (Fin lot) (Fin house) w c g n);
      apply get_num_find; assumption. }
  unfold cell. rewrite Fli, Flo, Fba, Fh. repeat split; assumption.
Qed.


End RatioGuard.

(** ** The aligner *)

Lemma mapM_Ok {A B : Type} (f : A -> result B) (g : A -> B) (l : list A) :
  (forall x, In x l -> f x = Ok (g x)) -> mapM f l = Ok (g <$> l).
Proof.
  induction l as [|x l IH]; intros H; [reflexivity|].
  cbn [mapM]. rewrite (H x (or_introl eq_refl)). cbn [mbind result_bind].
  rewrite IH by (intros y Hy; apply H; right; exact Hy).
  reflexivity.
Qed.

Lemma find_none_not_column (k : string) (df : frame) :
  List.find (labelled k) df = None -> ~ In k (columns df).
Proof.
  induction df as [|c df IH]; simpl; [tauto|].
  destruct (labelled k c) eqn:Hc; [discriminate|].
  intros Hf [Hk|Hk]; [|exact (IH Hf Hk)].
  apply labelled_eq in Hk. congruence.
Qed.

Lemma filter_labelled_absent (k : string) (df : frame) :
  ~ In k (columns df) -> List.filter (labelled k) df = [].
Proof.
  induction df as [|c df IH]; simpl; [reflexivity|].
  intros Hk. destruct (labelled k c) eqn:Hc.
  - apply labelled_eq in Hc. tauto.
  - apply IH. tauto.
Qed.

(** With distinct labels, a label selects exactly one column. *)
Lemma filter_labelled_unique (k : string) (c : string * series) (df : frame) :
  NoDup (columns df) ->
  List.find (labelled k) df = Some c ->
  List.filter (labelled k) df = [c].
Proof.
  induction df as [|c0 df IH]; simpl; [discriminate|].
  intros Hnd. apply NoDup_cons in Hnd. destruct Hnd as [Hc0 Hnd].
  destruct (labelled k c0) eqn:Hk.
  - intros [= <-]. f_equal. apply filter_labelled_absent.
    apply labelled_eq in Hk. rewrite <- Hk. intros Hin. apply Hc0.
    apply list_elem_of_In. exact Hin.
  - apply IH, Hnd.
Qed.







Section Aligner.

Variable feature_names : list string.


End Aligner.

(** ** Alignment of a request *)

Lemma columns_set_col_present (k : string) (s : series) (df : frame) :
  has_col k df = true -> columns (set_col k s df) = columns df.
Proof.
  intros H. unfold set_col, columns. rewrite H.
  rewrite <- list_fmap_compose. apply list_fmap_ext.
  intros i c _. simpl. destruct (labelled k c); reflexivity.
Qed.

Lemma columns_set_col (k : string) (s : series) (df : frame) :
  NoDup (columns df) -> NoDup (columns (set_col k s df)).
Proof.
  intros Hnd. destruct (has_col k df) eqn:H.
  - rewrite (columns_set_col_present k s df H). exact Hnd.
  - unfold set_col. rewrite H. unfold columns. rewrite fmap_app. simpl.
    apply NoDup_app. split; [exact Hnd|]. split; [|apply NoDup_singleton].
    intros x Hx Hx'. apply list_elem_of_singleton in Hx'. subst x.
    rewrite has_col_find in H.
    destruct (List.find (labelled k) df) eqn:Hfind; [discriminate|].
    apply (find_none_not_column k df Hfind). apply list_elem_of_In. exact Hx.
Qed.

Lemma columns_drop_cols (cols : list string) (df : frame) :
  NoDup (columns df) -> NoDup (columns (drop_cols cols df)).
Proof.
  unfold drop_cols, columns. induction df as [|c df IH]; simpl; [auto|].
  intros Hnd. apply NoDup_cons in Hnd. destruct Hnd as [Hc Hnd].
  destruct (negb (existsb (String.eqb (fst c)) cols)); simpl; [|apply IH, Hnd].
  apply NoDup_cons. split; [|apply IH, Hnd].
  intros Hin. apply Hc.
  apply list_elem_of_fmap in Hin. destruct Hin as (d & Hd & Hin).
  apply list_elem_of_fmap. exists d. split; [exact Hd|].
  apply list_elem_of_In in Hin. apply filter_In in Hin.
  apply list_elem_of_In. tauto.
Qed.

Section AlignedRequest.

Variable py_float_str : string -> option f64.
Variable pd_numeric_str : string -> f64.

Hypothesis conversions_agree :
  forall s x, py_float_str s = Some x -> pd_numeric_str s = x.





End AlignedRequest.

(** * The properties on concrete requests *)


Lemma sample_nonempty (k : string) (v : jvalue) (data : gmap string jvalue) :
  data !! k = Some v -> data <> ∅.
Proof. intros Hk He. rewrite He, lookup_empty in Hk. discriminate. Qed.

Lemma request_validated : validated Sample.float_of_digits Sample.request.
Proof.
  split; [|split].
  - apply (sample_nonempty "bedrooms" (JInt 3)). vm_compute. reflexivity.
  - vm_compute. reflexivity.
  - vm_compute. reflexivity.
Qed.

(** ** C2: a regressor answering -500 *)

Lemma predicted_price_nonnegative_witness :
  fst (Sample.serve (Sample.constant_model (-500)) (Sample.noon 2024) Sample.request)
  = {| status := 200; payload := PredictionBody (Sample.body_with_price 0) |}
  /\ 0 <= predicted_price (Sample.body_with_price 0).
Proof.
  assert (H : fst (Sample.serve (Sample.constant_model (-500)) (Sample.noon 2024) Sample.request)
              = {| status := 200; payload := PredictionBody (Sample.body_with_price 0) |})
    by (vm_compute; reflexivity).
  split; [exact H|].
  destruct (predicted_price_nonnegative
              Sample.float_of_digits Sample.numeric_of_digits Sample.feature_names
              (Some "RandomForestRegressor") Sample.metrics
              (Sklearn.transform (Sample.unit_scaler 30))
              (Sample.constant_model (-500)) (Sample.noon 2024) Sample.request
              _ (f_equal payload H))
    as (_ & X & Xs & raw & rest & _ & _ & _ & Hnn & _).
  exact Hnn.
Defined.

(** ** C9: the text of an internal error reaches the client *)

Lemma internal_error_reported_witness :
  fst (Sample.serve (Sample.failing_model "Input X contains NaN.")
         (Sample.noon 2024) Sample.request)
  = {| status := 500;
       payload := ErrorBody "Internal server error: Input X contains NaN." |}
  /\ In (LogError "Prediction error: Input X contains NaN.")
        (snd (Sample.serve (Sample.failing_model "Input X contains NaN.")
                (Sample.noon 2024) Sample.request)).
Proof.
  apply (internal_error_reported
           Sample.float_of_digits Sample.numeric_of_digits Sample.feature_names
           (Some "RandomForestRegressor") Sample.metrics
           (Sklearn.transform (Sample.unit_scaler 30))
           (Sample.failing_model "Input X contains NaN.")
           (Sample.noon 2024) Sample.request (Exn ValueError "Input X contains NaN.")).
  - exact request_validated.
  - right. right.
    destruct (create_features_from_input Sample.numeric_of_digits Sample.feature_names
                (Sample.noon 2024) Sample.request) as [X|e] eqn:HX;
      [|vm_compute in HX; discriminate].
    destruct (Sklearn.transform (Sample.unit_scaler 30) X) as [Xs|e] eqn:HXs.
    + exists X, Xs. repeat split; [exact HXs].
    + exfalso. vm_compute in HX. injection HX as <-. vm_compute in HXs. discriminate.
Defined.

(** The external message is not a fixed string: it carries whatever text
    the failing stage raised. *)
Lemma error_text_leaks :
  payload (fst (Sample.serve (Sample.failing_model "Input X contains NaN.")
                  (Sample.noon 2024) Sample.request))
  = ErrorBody "Internal server error: Input X contains NaN."
  /\ payload (fst (Sample.serve (Sample.failing_model "tree 17: node index out of range")
                     (Sample.noon 2024) Sample.request))
     = ErrorBody "Internal server error: tree 17: node index out of range".
Proof. split; vm_compute; reflexivity. Qed.

(** ** C7: the wall clock *)

Lemma pipeline_depends_on_clock_year_witness :
  scaled_features Sample.numeric_of_digits Sample.feature_names
    (Sklearn.transform (Sample.unit_scaler 30)) (Datetime 2024 1 1 0 0 0) Sample.request
  = scaled_features Sample.numeric_of_digits Sample.feature_names
      (Sklearn.transform (Sample.unit_scaler 30)) (Datetime 2024 12 31 23 59 59) Sample.request
  /\ Sample.serve (Sample.constant_model 350000) (Datetime 2024 1 1 0 0 0) Sample.request
     = Sample.serve (Sample.constant_model 350000) (Datetime 2024 12 31 23 59 59) Sample.request.
Proof.
  apply (pipeline_depends_on_clock_year
           Sample.float_of_digits Sample.numeric_of_digits Sample.feature_names
           (Some "RandomForestRegressor") Sample.metrics
           (Sklearn.transform (Sample.unit_scaler 30)) (Sample.constant_model 350000)).
  reflexivity.
Defined.

(** The same request, the same artifacts, two runs a year apart: the scaled
    vectors differ. *)
Lemma clock_year_changes_vector :
  scaled_features Sample.numeric_of_digits ["age"; "years_since_renovation"]
    (Sklearn.transform (Sample.unit_scaler 2)) (Sample.noon 2024) Sample.request
  = Ok [[Fin 34; Fin 34]]
  /\ scaled_features Sample.numeric_of_digits ["age"; "years_since_renovation"]
       (Sklearn.transform (Sample.unit_scaler 2)) (Sample.noon 2025) Sample.request
     = Ok [[Fin 35; Fin 35]].
Proof. split; vm_compute; reflexivity. Qed.

(** ** C4, C5, C10: missing fields *)







Example empty_grade_message :
  missing_msg request_with_empty_grade = "Missing required fields: grade".
Proof. vm_compute. reflexivity. Qed.

(** ** C3: the range table *)


(** A built year of 1700 is a number outside [[1800, 2024]]. *)
Example built_year_1700_out_of_range :
  out_of_range Sample.float_of_digits (JInt 1700) 1800 2024.
Proof.
  exists (Fin 1700). split; [reflexivity|].
  intros (q & Hq & Hlo & _). injection Hq as <-.
  vm_compute in Hlo. apply Hlo. reflexivity.
Qed.


(** ** C8: the ratios of the sample request *)


Example sample_ratios :
  (df ← engineer_input Sample.numeric_of_digits (Sample.noon 2024) Sample.request;
   Ok (cell "living_to_lot_ratio" 0 df, cell "basement_to_house_ratio" 0 df))
  = Ok (Some (Fin (1800 # 5001)), Some (Fin (0 # 1801))).
Proof. vm_compute. reflexivity. Qed.

(** ** C6: the aligner on the engineered sample request *)


(** A feature the record lacks is filled with zero; a column the list lacks
    is dropped. *)
Example align_fills_and_drops :
  align ["grade"; "has_pool"; "views_category_Some"] sample_engineered
  = Ok [("grade", SNum [Fin 7]); ("has_pool", SNum [Fin 0]);
        ("views_category_Some", SNum [Fin 1])].
Proof. vm_compute. reflexivity. Qed.

(** Outside the record type: a request that carries, besides the nineteen
    fields, a key named like a one-hot column.  pandas keeps both columns
    of that name, the selection returns both, and the scaler refuses the
    31 columns. *)
Example extra_key_duplicates_column :
  (X ← create_features_from_input Sample.numeric_of_digits Sample.feature_names
         (Sample.noon 2024) (<["views_category_Some" := JInt 5]> Sample.request);
   Ok (length X)) = Ok 31%nat
  /\ fst (Sample.serve (Sample.constant_model 350000) (Sample.noon 2024)
            (<["views_category_Some" := JInt 5]> Sample.request))
     = {| status := 500;
          payload := ErrorBody
            "Internal server error: X has 31 features, but StandardScaler is expecting 30 features as input." |}.
Proof. split; vm_compute; reflexivity. Qed.

(** ** C1: training-time and inference-time features of the same house *)

(** Whatever a validated request holds for condition, grade and views, the
    one-hot columns computed at inference are those of the middle bins. *)
Lemma inference_buckets_fixed (py_float_str : string -> option f64)
    (pd_numeric_str : string -> f64) (now : datetime) (data : gmap string jvalue) :
  (forall s x, py_float_str s = Some x -> pd_numeric_str s = x) ->
  validated py_float_str data ->
  exists kept, engineer_input pd_numeric_str now data = Ok (kept ++ middle_dummies).
Proof.
  intros Hagree Hv.
  destruct (engineer_input_validated py_float_str pd_numeric_str Hagree now data Hv)
    as (built & reno & basement & living & lot & house & w & Hdf & _).
  eexists. exact Hdf.
Qed.

(** C1, on the code.  At inference [pd.cut] is given the one row of the
    request, so whatever the value it lands in the middle of three bins.
    Train on the two-house set, then ask for the price of its first house:
    training persists the thirty features and its bins put the house in the
    lowest bucket of condition, grade and views (all three one-hot columns
    0), while inference puts it in the middle bucket (the columns
    [_Average], [_Medium], [_Some] are 1).  The other 27 features agree. *)
Theorem inference_recomputes_bins :
  (forall (q : Q) (labels : list string),
     cut [Fin q] 3 labels = Ok (SCat labels [Some 1%nat]))
  /\ (fm ← Training.feature_matrix (Sample.noon 2024) Sample.housing;
      X ← create_features_from_input Sample.numeric_of_digits (snd fm)
            (Sample.noon 2024) (Sample.record_of_row Sample.housing 0);
      Ok (snd fm,
          disagreements (snd fm) (fst fm) 0 X,
          cell "views_category_Some" 0 (fst fm),
          cell "views_category_Some" 0 X))
     = Ok (Sample.feature_names,
           ["condition_category_Average"; "grade_category_Medium"; "views_category_Some"],
           Some (Fin 0),
           Some (Fin 1)).
Proof.
  split.
  - intros q labels. apply cut_single_row.
  - vm_compute. reflexivity.
Qed.

(** * Further properties of the code *)

(** ** The handler's outcomes ([predict], app.py 115-198) *)


Lemma is_empty_str_false (v : jvalue) : is_empty_str v = false <-> v <> JStr "".
Proof.
  split.
  - intros H ->. discriminate.
  - intros H. destruct v as [| | | |s|]; try reflexivity.
    destruct s; [contradiction | reflexivity].
Qed.

Lemma filter_nil_iff {A : Type} (p : A -> bool) (l : list A) :
  List.filter p l = [] <-> forall x, In x l -> p x = false.
Proof.
  induction l as [|a l IH]; simpl.
  - split; [intros _ x [] | reflexivity].
  - destruct (p a) eqn:Ha.
    + split; [discriminate|]. intros H. rewrite (H a (or_introl eq_refl)) in Ha. discriminate.
    + rewrite IH. split.
      * intros H x [<-|Hx]; [exact Ha | exact (H x Hx)].
      * intros H x Hx. apply H. right. exact Hx.
Qed.

Section HandlerBehaviour.

Variable py_float_str : string -> option f64.
Variable pd_numeric_str : string -> f64.
Variable feature_names : list string.
Variable preprocessing_model_type : option string.
Variable metrics : gmap string f64.
Variable scaler_transform : frame -> result (list (list f64)).
Variable model_predict : list (list f64) -> result (list Q).

Local Abbreviation handle :=
  (predict py_float_str pd_numeric_str feature_names preprocessing_model_type
           metrics scaler_transform model_predict).
Local Abbreviation pipeline :=
  (run_pipeline pd_numeric_str feature_names preprocessing_model_type
                metrics scaler_transform model_predict).



(** X2.  An integer too large for a float is not a validation error: when
    no field is missing and the fields earlier in the table pass, such a
    value in a field of the table makes [float] raise [OverflowError],
    which the loop does not catch; the request is answered 500, and
    nothing of the pipeline has run. *)
Theorem oversized_integer_is_server_error (now : datetime) (data : gmap string jvalue)
    (before after : list (string * (Z * Z))) (f : string) (lo hi z : Z) :
  data <> ∅ ->
  missing_fields data = [] ->
  validations = before ++ (f, (lo, hi)) :: after ->
  Forall (passes py_float_str data) before ->
  data !! f = Some (JInt z) ->
  (2 ^ 1024 - 2 ^ 970 <= Z.abs z)%Z ->
  handle now data
  = ({| status := 500;
        payload := ErrorBody "Internal server error: int too large to convert to float" |},
     [LogError "Prediction error: int too large to convert to float"; PrintTraceback]).
Proof.
  intros Hne Hm Hsplit Hb Hv Hz. unfold predict.
  destruct (decide (data = ∅)) as [He|_]; [contradiction|].
  rewrite Hm, Hsplit, (check_ranges_at _ _ _ _ _ _ _ Hb).
  unfold check_field. rewrite Hv. unfold py_float, int_fits_float.
  assert (Hfit : (Z.abs z <? 2 ^ 1024 - 2 ^ 970)%Z = false) by (apply Z.ltb_ge; exact Hz).
  rewrite Hfit. reflexivity.
Qed.


(** X4.  What the validator accepts: a request passes validation exactly
    when each of the nineteen required fields is present with a value other
    than the empty string and each of the fifteen fields of the table holds
    a value that converts to a number within the field's range. *)
Theorem validated_iff (data : gmap string jvalue) :
  validated py_float_str data <->
  (forall f, In f required_fields -> exists v, data !! f = Some v /\ v <> JStr "")
  /\ (forall f lo hi, In (f, (lo, hi)) validations ->
        exists v, data !! f = Some v /\ in_range py_float_str v lo hi).
Proof.
  unfold validated. split.
  - intros (_ & Hm & Hp). split.
    + intros f Hf. unfold missing_fields in Hm.
      pose proof (proj1 (filter_nil_iff _ _) Hm f Hf) as Hf'.
      unfold is_missing in Hf'. destruct (data !! f) as [v|]; [|discriminate].
      exists v. split; [reflexivity|]. apply is_empty_str_false, Hf'.
    + intros f lo hi Hin. apply check_ranges_pass in Hp.
      rewrite Forall_forall in Hp.
      specialize (Hp _ (proj2 (list_elem_of_In _ _) Hin)).
      apply check_field_pass in Hp. exact Hp.
  - intros [Hreq Htab]. split; [|split].
    + destruct (Hreq "bedrooms") as (v & Hv & _); [unfold required_fields; in_table|].
      intros He. rewrite He, lookup_empty in Hv. discriminate.
    + unfold missing_fields. apply filter_nil_iff. intros f Hf.
      destruct (Hreq f Hf) as (v & Hv & Hne). unfold is_missing. rewrite Hv.
      apply is_empty_str_false, Hne.
    + apply check_ranges_pass. rewrite Forall_forall. intros [f [lo hi]] Hin.
      apply list_elem_of_In in Hin. unfold passes. simpl.
      apply check_field_pass. apply Htab, Hin.
Qed.

End HandlerBehaviour.

(** ** The derived features of a request ([create_features_from_input],
    app.py 52-76) *)



Section DerivedFeatures.

Variable py_float_str : string -> option f64.
Variable pd_numeric_str : string -> f64.

Hypothesis conversions_agree :
  forall s x, py_float_str s = Some x -> pd_numeric_str s = x.




End DerivedFeatures.

(** ** Feature engineering at training time ([create_features] and [main],
    train_and_save_model.py 35-114 and 269-273) *)

Lemma bind_Ok {A B : Type} (m : result A) (k : A -> result B) (r : B) :
  m ≫= k = Ok r -> exists a, m = Ok a /\ k a = Ok r.
Proof.
  destruct m as [a|e]; [|discriminate].
  intros H. exists a. split; [reflexivity | exact H].
Qed.

Lemma Ok_inj {A : Type} (a a' : A) : Ok a = Ok a' -> a = a'.
Proof. intros H. injection H as ->. reflexivity. Qed.

Lemma Ok_pair_inj {A B : Type} (a a' : A) (b b' : B) :
  @Ok (A * B) (a, b) = Ok (a', b') -> a = a' /\ b = b'.
Proof. intros H. injection H as -> ->. auto. Qed.

Ltac bind_inv H :=
  let a := fresh "a" in
  let Ha := fresh "Ha" in
  apply bind_Ok in H; destruct H as (a & Ha & H).

Ltac lookup_in H :=
  repeat first
    [ rewrite get_num_set_col_eq in H
    | rewrite get_num_set_col_ne in H by reflexivity ].

(** What a successful run of [create_features] has read and built. *)
Lemma create_features_inv (now : datetime) (df df' : frame) (feats : list string) :
  Training.create_features now df = Ok (df', feats) ->
  exists built reno basement water has_waterfront living lot house price
         cond grade views ccat gcat vcat,
    get_num "built_year" (rename Training.column_mapping df) = Ok built /\
    get_num "renovation_year" (rename Training.column_mapping df) = Ok reno /\
    get_num "basement_area" (rename Training.column_mapping df) = Ok basement /\
    get_num "waterfront" (rename Training.column_mapping df) = Ok water /\
    astype_int water = Ok has_waterfront /\
    get_num "living_area" (rename Training.column_mapping df) = Ok living /\
    get_num "lot_area" (rename Training.column_mapping df) = Ok lot /\
    get_num "house_area" (rename Training.column_mapping df) = Ok house /\
    get_num "price" (rename Training.column_mapping df) = Ok price /\
    get_num "condition" (rename Training.column_mapping df) = Ok cond /\
    get_num "grade" (rename Training.column_mapping df) = Ok grade /\
    get_num "views" (rename Training.column_mapping df) = Ok views /\
    cut cond 3 ["Poor"; "Average"; "Good"] = Ok ccat /\
    cut grade 3 ["Low"; "Medium"; "High"] = Ok gcat /\
    cut views 3 ["None"; "Some"; "Excellent"] = Ok vcat /\
    get_dummies (training_derived now built reno basement has_waterfront living lot
                   house price ccat gcat vcat (rename Training.column_mapping df))
                categorical_columns = Ok df' /\
    feats = List.filter (fun col => has_col col df')
              (Training.feature_columns ++
               List.filter (fun col => existsb (fun cat => contains cat col) categorical_columns)
                           (columns df')).
Proof.
  unfold Training.create_features. cbv zeta. intros H.
  generalize dependent (rename Training.column_mapping df). intros df1 H.
  bind_inv H. rename a into built, Ha into Hbuilt.
  bind_inv H. rename a into reno, Ha into Hreno. lookup_in Hreno.
  bind_inv H. lookup_in Ha. apply Ok_inj in Ha. subst a.
  bind_inv H. rename a into basement, Ha into Hbasement. lookup_in Hbasement.
  bind_inv H. lookup_in Ha. rewrite Hreno in Ha. apply Ok_inj in Ha. subst a.
  bind_inv H. rename a into water, Ha into Hwater. lookup_in Hwater.
  bind_inv H. rename a into hw, Ha into Hhw.
  bind_inv H. rename a into living, Ha into Hliving. lookup_in Hliving.
  bind_inv H. rename a into lot, Ha into Hlot. lookup_in Hlot.
  bind_inv H. lookup_in Ha. rewrite Hbasement in Ha. apply Ok_inj in Ha. subst a.
  bind_inv H. rename a into house, Ha into Hhouse. lookup_in Hhouse.
  bind_inv H. rename a into price, Ha into Hprice. lookup_in Hprice.
  bind_inv H. lookup_in Ha. rewrite Hliving in Ha. apply Ok_inj in Ha. subst a.
  bind_inv H. rename a into cond, Ha into Hcond. lookup_in Hcond.
  bind_inv H. rename a into ccat, Ha into Hccat.
  bind_inv H. rename a into grade, Ha into Hgrade. lookup_in Hgrade.
  bind_inv H. rename a into gcat, Ha into Hgcat.
  bind_inv H. rename a into views, Ha into Hviews. lookup_in Hviews.
  bind_inv H. rename a into vcat, Ha into Hvcat.
  bind_inv H. rename a into enc, Ha into Henc.
  apply Ok_pair_inj in H. destruct H as [H1 H2]. subst enc.
  exists built, reno, basement, water, hw, living, lot, house, price,
         cond, grade, views, ccat, gcat, vcat.
  repeat (split; [assumption|]).
  symmetry. exact H2.
Qed.

Lemma has_col_In (k : string) (df : frame) :
  has_col k df = true <-> In k (columns df).
Proof.
  unfold has_col, columns. rewrite existsb_exists. split.
  - intros (c & Hc & Hk). apply labelled_eq in Hk. subst k.
    apply in_map. exact Hc.
  - intros H. apply in_map_iff in H. destruct H as (c & Hk & Hc).
    exists c. split; [exact Hc | apply labelled_eq, Hk].
Qed.

Lemma has_col_app (k : string) (a b : frame) :
  has_col k (a ++ b) = has_col k a || has_col k b.
Proof. apply existsb_app. Qed.

Lemma has_col_set_col (k k' : string) (s : series) (df : frame) :
  has_col k (set_col k' s df) = String.eqb k' k || has_col k df.
Proof.
  rewrite !has_col_find. destruct (String.eqb k' k) eqn:E.
  - apply String.eqb_eq in E. subst k'. rewrite find_set_col_eq. reflexivity.
  - rewrite (find_set_col_ne k k' s df E). reflexivity.
Qed.

Lemma has_col_drop_cols (k : string) (cols : list string) (df : frame) :
  existsb (String.eqb k) cols = false ->
  has_col k (drop_cols cols df) = has_col k df.
Proof. intros H. rewrite !has_col_find, (find_drop_cols k cols df H). reflexivity. Qed.

Lemma get_num_has_col (k : string) (df : frame) (xs : list f64) :
  get_num k df = Ok xs -> has_col k df = true.
Proof.
  unfold get_num, get_col. rewrite has_col_find.
  destruct (List.find (labelled k) df); [reflexivity | discriminate].
Qed.

Lemma get_num_cell (k : string) (df : frame) (xs : list f64) (i : nat) :
  get_num k df = Ok xs -> cell k i df = xs !! i.
Proof.
  unfold get_num, get_col, cell.
  destruct (List.find (labelled k) df) as [[k' s]|]; [|discriminate].
  cbn [mbind result_bind snd]. destruct s; try discriminate.
  intros H. apply Ok_inj in H. subst. reflexivity.
Qed.

Lemma find_app_some {A : Type} (p : A -> bool) (l rest : list A) (c : A) :
  List.find p l = Some c -> List.find p (l ++ rest) = Some c.
Proof.
  induction l as [|d l IH]; simpl; [discriminate|].
  destruct (p d); [auto | exact IH].
Qed.

Lemma get_num_kept (k : string) (cols : list string) (df rest : frame) (xs : list f64) :
  existsb (String.eqb k) cols = false ->
  get_num k df = Ok xs ->
  get_num k (drop_cols cols df ++ rest) = Ok xs.
Proof.
  intros Hk. unfold get_num, get_col. rewrite <- (find_drop_cols k cols df Hk).
  destruct (List.find (labelled k) (drop_cols cols df)) as [c|] eqn:Hf; [|discriminate].
  rewrite (find_app_some _ _ rest _ Hf). auto.
Qed.

Lemma get_dummies_shape (df df' : frame) (cols : list string) :
  get_dummies df cols = Ok df' -> exists rest, df' = drop_cols cols df ++ rest.
Proof.
  unfold get_dummies. intros H. bind_inv H. apply Ok_inj in H.
  exists (concat a). symmetry. exact H.
Qed.

Lemma cut_categorical (xs : list f64) (n : nat) (labels : list string) (s : series) :
  cut xs n labels = Ok s ->
  exists codes, s = SCat labels codes /\ length codes = length xs.
Proof.
  unfold cut. destruct xs as [|x xs]; [discriminate|].
  destruct (existsb is_inf (x :: xs)); [discriminate|].
  destruct (finite_values (x :: xs)) as [|v vs]; [discriminate|].
  intros H. apply Ok_inj in H. subst s.
  eexists. split; [reflexivity|]. apply length_fmap.
Qed.

Lemma get_dummies_training (now : datetime)
    (built reno basement hw living lot house price : list f64)
    (l1 l2 l3 : list (option nat)) (df : frame) :
  get_dummies
    (training_derived now built reno basement hw living lot house price
       (SCat ["Poor"; "Average"; "Good"] l1)
       (SCat ["Low"; "Medium"; "High"] l2)
       (SCat ["None"; "Some"; "Excellent"] l3) df)
    categorical_columns
  = Ok (drop_cols categorical_columns
          (training_derived now built reno basement hw living lot house price
             (SCat ["Poor"; "Average"; "Good"] l1)
             (SCat ["Low"; "Medium"; "High"] l2)
             (SCat ["None"; "Some"; "Excellent"] l3) df)
        ++ training_dummies l1 l2 l3).
Proof.
  unfold get_dummies, categorical_columns, training_derived. cbv zeta.
  cbn [mapM mbind result_bind mret result_ret].
  lookup_cols.
  reflexivity.
Qed.

(** The frame and the feature list of a successful run, in closed form. *)
Lemma create_features_frame (now : datetime) (df df' : frame) (feats : list string) :
  Training.create_features now df = Ok (df', feats) ->
  exists built reno basement water hw living lot house price cond grade views l1 l2 l3,
    get_num "built_year" (rename Training.column_mapping df) = Ok built /\
    get_num "renovation_year" (rename Training.column_mapping df) = Ok reno /\
    get_num "basement_area" (rename Training.column_mapping df) = Ok basement /\
    get_num "waterfront" (rename Training.column_mapping df) = Ok water /\
    astype_int water = Ok hw /\
    get_num "living_area" (rename Training.column_mapping df) = Ok living /\
    get_num "lot_area" (rename Training.column_mapping df) = Ok lot /\
    get_num "house_area" (rename Training.column_mapping df) = Ok house /\
    get_num "price" (rename Training.column_mapping df) = Ok price /\
    get_num "condition" (rename Training.column_mapping df) = Ok cond /\
    get_num "grade" (rename Training.column_mapping df) = Ok grade /\
    get_num "views" (rename Training.column_mapping df) = Ok views /\
    df' = drop_cols categorical_columns
            (training_derived now built reno basement hw living lot house price
               (SCat ["Poor"; "Average"; "Good"] l1)
               (SCat ["Low"; "Medium"; "High"] l2)
               (SCat ["None"; "Some"; "Excellent"] l3)
               (rename Training.column_mapping df))
          ++ training_dummies l1 l2 l3 /\
    feats = List.filter (fun col => has_col col df')
              (Training.feature_columns ++
               List.filter (fun col => existsb (fun cat => contains cat col) categorical_columns)
                           (columns df')).
Proof.
  intros H. apply create_features_inv in H.
  destruct H as (built & reno & basement & water & hw & living & lot & house & price
                 & cond & grade & views & ccat & gcat & vcat
                 & Hb & Hr & Hba & Hw & Hhw & Hli & Hlo & Hh & Hp & Hc & Hg & Hv
                 & Cc & Cg & Cv & Henc & Hfeats).
  apply cut_categorical in Cc, Cg, Cv.
  destruct Cc as (l1 & -> & _). destruct Cg as (l2 & -> & _). destruct Cv as (l3 & -> & _).
  rewrite get_dummies_training in Henc. apply Ok_inj in Henc.
  exists built, reno, basement, water, hw, living, lot, house, price, cond, grade, views,
         l1, l2, l3.
  repeat (split; [assumption|]).
  split; [symmetry; exact Henc | exact Hfeats].
Qed.

Lemma get_num_inv (k : string) (df : frame) (xs : list f64) :
  get_num k df = Ok xs -> List.find (labelled k) df = Some (k, SNum xs).
Proof.
  unfold get_num, get_col.
  destruct (List.find (labelled k) df) as [[k' s]|] eqn:Hf; [|discriminate].
  apply find_some in Hf. destruct Hf as [_ Hk]. apply labelled_eq in Hk. simpl in Hk. subst k'.
  cbn [mbind result_bind snd]. destruct s; try discriminate.
  intros H. apply Ok_inj in H. subst. reflexivity.
Qed.

Lemma select_present (names : list string) (df : frame) :
  (forall name, In name names -> has_col name df = true) ->
  select names df = Ok (concat ((fun name => List.filter (labelled name) df) <$> names)).
Proof.
  intros H. unfold select.
  rewrite (mapM_Ok _ (fun name => List.filter (labelled name) df)); [reflexivity|].
  intros name Hin. specialize (H name Hin). rewrite has_col_find in H.
  destruct (List.find (labelled name) df) as [c|] eqn:Hf; [|discriminate].
  apply find_some in Hf.
  destruct (List.filter (labelled name) df) as [|c' l] eqn:Hfl; [|reflexivity].
  exfalso. assert (Hc : In c (List.filter (labelled name) df)) by (apply filter_In; exact Hf).
  rewrite Hfl in Hc. contradiction.
Qed.

Lemma features_are_columns (now : datetime) (df df' : frame) (feats : list string) :
  Training.create_features now df = Ok (df', feats) ->
  forall f, In f feats ->
    has_col f df' = true /\
    (In f Training.feature_columns \/
     existsb (fun cat => contains cat f) categorical_columns = true).
Proof.
  intros H f Hf. apply create_features_inv in H.
  destruct H as (? & ? & ? & ? & ? & ? & ? & ? & ? & ? & ? & ? & ? & ? & ? & H).
  do 16 (destruct H as [_ H]). subst feats.
  apply filter_In in Hf. destruct Hf as [Hin Hcol]. split; [exact Hcol|].
  apply in_app_or in Hin. destruct Hin as [Hin|Hin]; [left; exact Hin|].
  right. apply filter_In in Hin. apply Hin.
Qed.

(** X8.  The selection [df_processed[feature_columns]] of [main] cannot
    fail: whenever [create_features] returns, every name of the feature
    list it returns is a column of the frame it returns, so the feature
    matrix is built, it has a column for every feature, and each of its
    columns is a column of the processed frame named in the list. *)
Theorem feature_matrix_defined (now : datetime) (df df' : frame) (feats : list string) :
  Training.create_features now df = Ok (df', feats) ->
  exists X,
    Training.feature_matrix now df = Ok (X, feats) /\
    Forall (fun f => has_col f df' = true /\ has_col f X = true) feats /\
    Forall (fun c => In c df' /\ In (fst c) feats) X.
Proof.
  intros H.
  assert (Hcols : forall f, In f feats -> has_col f df' = true)
    by (intros f Hf; apply (features_are_columns now df df' feats H f Hf)).
  exists (concat ((fun name => List.filter (labelled name) df') <$> feats)).
  split; [|split].
  - unfold Training.feature_matrix. rewrite H. cbn [mbind result_bind fst snd].
    rewrite (select_present feats df' Hcols). reflexivity.
  - apply List.Forall_forall. intros f Hf. split; [exact (Hcols f Hf)|].
    pose proof (Hcols f Hf) as Hc. rewrite has_col_find in Hc.
    destruct (List.find (labelled f) df') as [c|] eqn:Hfind; [|discriminate].
    apply find_some in Hfind. destruct Hfind as [Hin Hlab].
    apply has_col_In. unfold columns. apply in_map_iff. exists c.
    split; [apply labelled_eq, Hlab|].
    apply in_concat. exists (List.filter (labelled f) df'). split.
    + apply in_map_iff. exists f. split; [reflexivity | exact Hf].
    + apply filter_In. split; assumption.
  - apply List.Forall_forall. intros c Hc.
    apply in_concat in Hc. destruct Hc as (l & Hl & Hc).
    apply in_map_iff in Hl. destruct Hl as (f & <- & Hf).
    apply filter_In in Hc. destruct Hc as [Hin Hlab].
    apply labelled_eq in Hlab. rewrite Hlab. split; assumption.
Qed.

(** X9.  No target leakage.  The target [df_processed['price']] is the
    price column of the data set as it was read, and neither [price] nor
    [price_per_sqft], which is computed from it, is ever a feature: every
    feature is one of the 24 base names or carries the name of a
    categorical column. *)
Theorem no_target_leakage (now : datetime) (df df' : frame) (feats : list string) :
  Training.create_features now df = Ok (df', feats) ->
  exists price,
    get_num "price" (rename Training.column_mapping df) = Ok price /\
    target df' = Ok (SNum price) /\
    Forall (fun f => f <> "price" /\ f <> "price_per_sqft" /\
                     (In f Training.feature_columns \/
                      exists cat, In cat categorical_columns /\ contains cat f = true))
           feats.
Proof.
  intros H. pose proof (features_are_columns now df df' feats H) as Hfeat.
  apply create_features_frame in H.
  destruct H as (built & reno & basement & water & hw & living & lot & house & price
                 & cond & grade & views & l1 & l2 & l3
                 & _ & _ & _ & _ & _ & _ & _ & _ & Hp & _ & _ & _ & Hdf & _).
  exists price. split; [exact Hp|]. split.
  - apply get_num_inv in Hp. unfold target, get_col. rewrite Hdf.
    rewrite (find_app_some _ _ _ ("price", SNum price)); [reflexivity|].
    rewrite find_drop_cols by reflexivity.
    unfold training_derived. cbv zeta.
    repeat rewrite find_set_col_ne by reflexivity. exact Hp.
  - apply List.Forall_forall. intros f Hf.
    destruct (Hfeat f Hf) as [_ Hkind].
    assert (Hnot : forall t, In t ["price"; "price_per_sqft"] -> f <> t).
    { intros t Ht ->. destruct Hkind as [Hin|Hc].
      - assert (He : existsb (String.eqb t) Training.feature_columns = true)
          by (apply existsb_exists; exists t; split; [exact Hin | apply String.eqb_refl]).
        simpl in Ht. destruct Ht as [<-|[<-|[]]]; vm_compute in He; discriminate.
      - simpl in Ht. destruct Ht as [<-|[<-|[]]]; vm_compute in Hc; discriminate. }
    split; [apply Hnot; simpl; tauto|]. split; [apply Hnot; simpl; tauto|].
    destruct Hkind as [Hin|Hc]; [left; exact Hin|].
    right. apply existsb_exists in Hc. exact Hc.
Qed.

Lemma astype_int_lookup (xs ys : list f64) (i : nat) (x : f64) :
  astype_int xs = Ok ys -> xs !! i = Some x ->
  exists q, x = Fin q /\ ys !! i = Some (of_Z (Qtrunc q)).
Proof.
  unfold astype_int. revert ys i.
  induction xs as [|x0 xs IH]; intros ys i H Hx; [discriminate|].
  cbn [mapM] in H. bind_inv H. bind_inv H. apply Ok_inj in H. subst ys.
  destruct i as [|i].
  - simpl in Hx. injection Hx as ->. destruct x as [q| | |]; try discriminate.
    apply Ok_inj in Ha. subst a. exists q. split; reflexivity.
  - simpl in Hx. simpl. exact (IH a0 i Ha0 Hx).
Qed.

Lemma np_where_lookup (cond : list bool) (a b : list f64) (i : nat)
    (c : bool) (x y : f64) :
  cond !! i = Some c -> a !! i = Some x -> b !! i = Some y ->
  np_where cond a b !! i = Some (if c then x else y).
Proof.
  revert a b i. induction cond as [|c0 cond IH]; intros a b i Hc Ha Hb; [discriminate|].
  destruct a as [|x0 a]; [discriminate|]. destruct b as [|y0 b]; [discriminate|].
  destruct i as [|i]; simpl in *.
  - injection Hc as ->. injection Ha as ->. injection Hb as ->. reflexivity.
  - exact (IH a b i Hc Ha Hb).
Qed.

Lemma zip_div_lookup (num den : list f64) (i : nat) (x y : f64) :
  num !! i = Some x -> den !! i = Some y ->
  zip_with div num ((fun d => add d (Fin 1)) <$> den) !! i = Some (div x (add y (Fin 1))).
Proof.
  intros Hx Hy. rewrite lookup_zip_with, Hx, list_lookup_fmap, Hy. reflexivity.
Qed.


Lemma In_columns_set_col (c k : string) (s : series) (df : frame) :
  In c (columns (set_col k s df)) -> c = k \/ In c (columns df).
Proof.
  destruct (has_col k df) eqn:H.
  - rewrite (columns_set_col_present k s df H). auto.
  - unfold set_col. rewrite H. unfold columns. rewrite fmap_app.
    intros Hin. apply in_app_or in Hin. destruct Hin as [Hin|[<-|[]]]; auto.
Qed.

Lemma In_columns_drop_cols (c : string) (cols : list string) (df : frame) :
  In c (columns (drop_cols cols df)) ->
  In c (columns df) /\ existsb (String.eqb c) cols = false.
Proof.
  unfold columns, drop_cols. intros H. apply in_map_iff in H.
  destruct H as (d & <- & Hd). apply filter_In in Hd. destruct Hd as [Hd Hn].
  split; [apply in_map; exact Hd|]. apply negb_true_iff. exact Hn.
Qed.

Lemma has_col_set_col_same (k : string) (s : series) (df : frame) :
  has_col k (set_col k s df) = true.
Proof. rewrite has_col_set_col, String.eqb_refl. reflexivity. Qed.

Lemma has_col_set_col_mono (k k' : string) (s : series) (df : frame) :
  has_col k df = true -> has_col k (set_col k' s df) = true.
Proof. intros H. rewrite has_col_set_col, H. apply orb_true_r. Qed.

Lemma filter_all {A : Type} (p : A -> bool) (l : list A) :
  (forall x, In x l -> p x = true) -> List.filter p l = l.
Proof.
  induction l as [|a l IH]; intros H; [reflexivity|].
  simpl. rewrite (H a (or_introl eq_refl)). f_equal.
  apply IH. intros x Hx. apply H. right. exact Hx.
Qed.

Lemma columns_select_distinct (names : list string) (df : frame) :
  NoDup (columns df) ->
  (forall name, In name names -> has_col name df = true) ->
  columns (concat ((fun name => List.filter (labelled name) df) <$> names)) = names.
Proof.
  intros Hnd. induction names as [|n names IH]; intros H; [reflexivity|].
  pose proof (H n (or_introl eq_refl)) as Hn. rewrite has_col_find in Hn.
  destruct (List.find (labelled n) df) as [c|] eqn:Hf; [|discriminate].
  cbn [fmap list_fmap concat]. rewrite (filter_labelled_unique n c df Hnd Hf).
  apply find_some in Hf. destruct Hf as [_ Hc]. apply labelled_eq in Hc.
  unfold columns in *. cbn [app fmap list_fmap]. rewrite Hc. f_equal.
  apply IH. intros name Hname. apply H. right. exact Hname.
Qed.

(** The columns the derived frame keeps besides those of the data set. *)
Lemma In_columns_training_derived (now : datetime)
    (built reno basement hw living lot house price : list f64)
    (ccat gcat vcat : series) (df : frame) (c : string) :
  In c (columns (drop_cols categorical_columns
                   (training_derived now built reno basement hw living lot house price
                      ccat gcat vcat df))) ->
  In c ["age"; "years_since_renovation"; "has_basement"; "is_renovated";
        "has_waterfront"; "living_to_lot_ratio"; "basement_to_house_ratio";
        "price_per_sqft"]
  \/ In c (columns df).
Proof.
  intros H. apply In_columns_drop_cols in H. destruct H as [H Hcat].
  unfold training_derived in H. cbv zeta in H.
  repeat (apply In_columns_set_col in H;
          destruct H as [->|H]; [first [discriminate Hcat | left; simpl; tauto]|]).
  right. exact H.
Qed.

(** X11.  The feature list of a well-formed data set.  When the data set
    has, under distinct names, the nine columns that are only passed on,
    and none of its columns is named like a categorical column, a
    successful run of [create_features] returns exactly the thirty
    canonical features, the 24 base features followed by the six one-hot
    columns, and [main] builds a feature matrix with exactly these
    columns, in this order. *)
Theorem canonical_feature_list (now : datetime) (df df' : frame) (feats : list string) :
  Training.create_features now df = Ok (df', feats) ->
  NoDup (columns (rename Training.column_mapping df)) ->
  Forall (fun f => has_col f (rename Training.column_mapping df) = true) passed_through ->
  Forall (fun c => existsb (fun cat => contains cat c) categorical_columns = false)
         (columns (rename Training.column_mapping df)) ->
  feats = Sample.feature_names /\
  exists X,
    Training.feature_matrix now df = Ok (X, feats) /\
    columns X = Sample.feature_names.
Proof.
  intros H Hnd Hpass Hnames.
  pose proof (features_are_columns now df df' feats H) as Hfeat.
  pose proof H as Hrun.
  apply create_features_frame in H.
  destruct H as (built & reno & basement & water & hw & living & lot & house & price
                 & cond & grade & views & l1 & l2 & l3
                 & Hb & Hr & Hba & Hw & Hhw & Hli & Hlo & Hh & Hp & Hc & Hg & Hv
                 & Hdf & Hfeats).
  apply get_num_has_col in Hb, Hr, Hba, Hw, Hli, Hlo, Hh, Hp, Hc, Hg, Hv.
  rewrite List.Forall_forall in Hpass, Hnames.
  unfold Training.feature_matrix in *. rewrite Hrun. cbn [mbind result_bind fst snd].
  clear Hrun Hhw.
  generalize dependent (rename Training.column_mapping df). intros df1.
  intros.
  set (D := drop_cols categorical_columns
              (training_derived now built reno basement hw living lot house price
                 (SCat ["Poor"; "Average"; "Good"] l1)
                 (SCat ["Low"; "Medium"; "High"] l2)
                 (SCat ["None"; "Some"; "Excellent"] l3) df1)) in *.
  assert (HD : forall c, In c (columns D) ->
                 existsb (fun cat => contains cat c) categorical_columns = false).
  { intros c Hin. apply In_columns_training_derived in Hin.
    destruct Hin as [Hin|Hin]; [|exact (Hnames c Hin)].
    simpl in Hin. decompose [or] Hin; try contradiction; subst c; reflexivity. }
  assert (Hcols : columns df' = columns D ++ columns (training_dummies l1 l2 l3)).
  { rewrite Hdf. unfold columns. apply fmap_app. }
  assert (Hdummy : List.filter (fun col => existsb (fun cat => contains cat col)
                                             categorical_columns) (columns df')
                   = columns (training_dummies l1 l2 l3)).
  { rewrite Hcols, List.filter_app.
    rewrite (proj2 (filter_nil_iff _ (columns D)) HD). reflexivity. }
  assert (Hall : forall f, In f Sample.feature_names -> has_col f df' = true).
  { intros f Hf. rewrite Hdf, has_col_app.
    unfold Sample.feature_names in Hf. apply in_app_or in Hf. destruct Hf as [Hf|Hf].
    - apply orb_true_iff. left. unfold D.
      assert (Hcat : existsb (String.eqb f) categorical_columns = false).
      { simpl in Hf. decompose [or] Hf; try contradiction; subst f; reflexivity. }
      rewrite (has_col_drop_cols f _ _ Hcat).
      unfold training_derived. cbv zeta.
      simpl in Hf. decompose [or] Hf; try contradiction; subst f;
        repeat first [ apply has_col_set_col_same | apply has_col_set_col_mono ];
        first [ assumption | apply Hpass; unfold passed_through; in_table ].
    - apply orb_true_iff. right.
      simpl in Hf. decompose [or] Hf; try contradiction; subst f; reflexivity. }
  assert (Hlist : feats = Sample.feature_names).
  { rewrite Hfeats, Hdummy. apply filter_all. exact Hall. }
  split; [exact Hlist|].
  assert (Hnd' : NoDup (columns df')).
  { rewrite Hcols. apply NoDup_app. split; [|split].
    - unfold D. apply columns_drop_cols. unfold training_derived. cbv zeta.
      do 11 apply columns_set_col. exact Hnd.
    - intros k Hk Hk'. apply list_elem_of_In in Hk, Hk'.
      pose proof (HD k Hk) as Hfalse.
      simpl in Hk'. decompose [or] Hk'; try contradiction; subst k; discriminate Hfalse.
    - refine (@bool_decide_unpack _ (NoDup_dec _) _). vm_compute. exact I. }
  exists (concat ((fun name => List.filter (labelled name) df') <$> feats)).
  split.
  - rewrite (select_present feats df'); [reflexivity|].
    intros f Hf. apply (Hfeat f Hf).
  - rewrite Hlist. apply (columns_select_distinct _ _ Hnd' Hall).
Qed.

(** X12.  A data set without rows is refused: when the columns
    [create_features] computes with are numeric and empty, as after
    [dropna] has dropped every row, the derived columns are computed on
    nothing and the first [pd.cut] raises [ValueError]. *)
Theorem empty_training_set_fails (now : datetime) (df : frame) :
  Forall (fun k => get_num k (rename Training.column_mapping df) = Ok []) computed_from ->
  Training.create_features now df = Raise (Exn ValueError "Cannot cut empty array").
Proof.
  intros H. rewrite List.Forall_forall in H.
  assert (Hb := H "built_year" ltac:(unfold computed_from; in_table)).
  assert (Hr := H "renovation_year" ltac:(unfold computed_from; in_table)).
  assert (Hba := H "basement_area" ltac:(unfold computed_from; in_table)).
  assert (Hw := H "waterfront" ltac:(unfold computed_from; in_table)).
  assert (Hli := H "living_area" ltac:(unfold computed_from; in_table)).
  assert (Hlo := H "lot_area" ltac:(unfold computed_from; in_table)).
  assert (Hh := H "house_area" ltac:(unfold computed_from; in_table)).
  assert (Hp := H "price" ltac:(unfold computed_from; in_table)).
  assert (Hc := H "condition" ltac:(unfold computed_from; in_table)).
  clear H.
  unfold Training.create_features. cbv zeta.
  generalize dependent (rename Training.column_mapping df). intros df1. intros.
  feed Hb. feed Hr. lookup_cols. cbn [mbind result_bind].
  feed Hba. feed Hr. feed Hw.
  change (astype_int []) with (@Ok (list f64) []). cbn [mbind result_bind].
  feed Hli. feed Hlo. feed Hba. feed Hh. feed Hp. feed Hli.
  feed Hc. reflexivity.
Qed.

(** X13.  A column the data set lacks.  Without one of the columns the
    derived features are computed from, [create_features] raises and
    nothing is trained.  Without one of the nine columns that are only
    passed on, nothing is reported: if the run succeeds, the column is
    left out of the feature list, and the model is trained without it. *)
Theorem absent_column (now : datetime) (df : frame) (k : string) :
  has_col k (rename Training.column_mapping df) = false ->
  (In k computed_from -> exists e, Training.create_features now df = Raise e) /\
  (In k passed_through ->
   forall df' feats, Training.create_features now df = Ok (df', feats) -> ~ In k feats).
Proof.
  intros Habs. split.
  - intros Hk.
    destruct (Training.create_features now df) as [[df' feats]|e] eqn:H;
      [exfalso | exists e; reflexivity].
    apply create_features_inv in H.
    destruct H as (built & reno & basement & water & hw & living & lot & house & price
                   & cond & grade & views & ccat & gcat & vcat
                   & Hb & Hr & Hba & Hw & _ & Hli & Hlo & Hh & Hp & Hc & Hg & Hv & _).
    apply get_num_has_col in Hb, Hr, Hba, Hw, Hli, Hlo, Hh, Hp, Hc, Hg, Hv.
    unfold computed_from in Hk. simpl in Hk.
    decompose [or] Hk; try contradiction; subst k; congruence.
  - intros Hk df' feats H Hin.
    destruct (features_are_columns now df df' feats H k Hin) as [Hcol _].
    apply create_features_frame in H.
    destruct H as (built & reno & basement & water & hw & living & lot & house & price
                   & cond & grade & views & l1 & l2 & l3
                   & _ & _ & _ & _ & _ & _ & _ & _ & _ & _ & _ & _ & Hdf & _).
    generalize dependent (rename Training.column_mapping df). intros df1. intros.
    rewrite Hdf, has_col_app in Hcol.
    assert (Hcat : existsb (String.eqb k) categorical_columns = false).
    { unfold passed_through in Hk. simpl in Hk.
      decompose [or] Hk; try contradiction; subst k; reflexivity. }
    rewrite (has_col_drop_cols k _ _ Hcat) in Hcol.
    unfold training_derived in Hcol. cbv zeta in Hcol.
    rewrite !has_col_set_col, Habs in Hcol.
    unfold passed_through in Hk. simpl in Hk.
    decompose [or] Hk; try contradiction; subst k; discriminate Hcol.
Qed.

(** ** The same house at training and at inference *)

(** What a successful run of the inference-time feature engineer has read
    and built. *)
Lemma engineer_frame_inv (now : datetime) (df dfe : frame) :
  engineer_frame now df = Ok dfe ->
  exists built reno basement water hw living lot house ccat gcat vcat rest,
    get_num "built_year" df = Ok built /\
    get_num "renovation_year" df = Ok reno /\
    get_num "basement_area" df = Ok basement /\
    get_num "waterfront" df = Ok water /\
    astype_int water = Ok hw /\
    get_num "living_area" df = Ok living /\
    get_num "lot_area" df = Ok lot /\
    get_num "house_area" df = Ok house /\
    dfe = drop_cols categorical_columns
            (inference_derived now built reno basement hw living lot house
               ccat gcat vcat df)
          ++ rest.
Proof.
  unfold engineer_frame. cbv zeta. intros H.
  bind_inv H. rename a into built, Ha into Hbuilt.
  bind_inv H. rename a into reno, Ha into Hreno. lookup_in Hreno.
  bind_inv H. lookup_in Ha. apply Ok_inj in Ha. subst a.
  bind_inv H. rename a into basement, Ha into Hbasement. lookup_in Hbasement.
  bind_inv H. lookup_in Ha. rewrite Hreno in Ha. apply Ok_inj in Ha. subst a.
  bind_inv H. rename a into water, Ha into Hwater. lookup_in Hwater.
  bind_inv H. rename a into hw, Ha into Hhw.
  bind_inv H. rename a into living, Ha into Hliving. lookup_in Hliving.
  bind_inv H. rename a into lot, Ha into Hlot. lookup_in Hlot.
  bind_inv H. lookup_in Ha. rewrite Hbasement in Ha. apply Ok_inj in Ha. subst a.
  bind_inv H. rename a into house, Ha into Hhouse. lookup_in Hhouse.
  bind_inv H. clear Ha.
  bind_inv H. rename a0 into ccat. clear Ha.
  bind_inv H. clear Ha.
  bind_inv H. rename a1 into gcat. clear Ha.
  bind_inv H. clear Ha.
  bind_inv H. rename a2 into vcat. clear Ha.
  apply get_dummies_shape in H. destruct H as [rest H].
  exists built, reno, basement, water, hw, living, lot, house, ccat, gcat, vcat, rest.
  repeat (split; [assumption|]). exact H.
Qed.

Lemma engineer_input_frame (pd_numeric_str : string -> f64) (now : datetime)
    (data : gmap string jvalue) :
  engineer_frame now (input_frame pd_numeric_str data)
  = engineer_input pd_numeric_str now data.
Proof. exact (eq_refl (engineer_frame now (input_frame pd_numeric_str data))). Qed.

Ltac derived_cell unfolding :=
  apply cell_get_dummies_kept; [reflexivity|]; unfolding; cbv zeta; find_cells.

(** Row [i] of the derived columns, at training and at inference. *)
Lemma training_cells (now : datetime)
    (built reno basement hw living lot house price : list f64)
    (ccat gcat vcat : series) (df rest : frame) (i : nat)
    (b r ba x la lo h : f64) :
  built !! i = Some b -> reno !! i = Some r -> basement !! i = Some ba ->
  hw !! i = Some x -> living !! i = Some la -> lot !! i = Some lo ->
  house !! i = Some h ->
  let W := drop_cols categorical_columns
             (training_derived now built reno basement hw living lot house price ccat gcat vcat df) ++ rest in
  cell "age" i W = Some (sub (of_Z (year now)) b) /\
  cell "years_since_renovation" i W
  = Some (if gtb r (Fin 0) then sub (of_Z (year now)) r else sub (of_Z (year now)) b) /\
  cell "has_basement" i W = Some (of_bool (gtb ba (Fin 0))) /\
  cell "is_renovated" i W = Some (of_bool (gtb r (Fin 0))) /\
  cell "has_waterfront" i W = Some x /\
  cell "living_to_lot_ratio" i W = Some (div la (add lo (Fin 1))) /\
  cell "basement_to_house_ratio" i W = Some (div ba (add h (Fin 1))).
Proof.
  intros Cb Cr Cba Cx Cla Clo Ch W. subst W.
  repeat split; derived_cell ltac:(unfold training_derived).
  - rewrite list_lookup_fmap, Cb. reflexivity.
  - apply np_where_lookup; rewrite list_lookup_fmap; [rewrite Cr | rewrite Cr | rewrite Cb];
      reflexivity.
  - rewrite list_lookup_fmap, Cba. reflexivity.
  - rewrite list_lookup_fmap, Cr. reflexivity.
  - exact Cx.
  - apply zip_div_lookup; assumption.
  - apply zip_div_lookup; assumption.
Qed.

Lemma inference_cells (now : datetime)
    (built reno basement hw living lot house : list f64)
    (ccat gcat vcat : series) (df rest : frame) (i : nat)
    (b r ba x la lo h : f64) :
  built !! i = Some b -> reno !! i = Some r -> basement !! i = Some ba ->
  hw !! i = Some x -> living !! i = Some la -> lot !! i = Some lo ->
  house !! i = Some h ->
  let W := drop_cols categorical_columns
             (inference_derived now built reno basement hw living lot house ccat gcat vcat df) ++ rest in
  cell "age" i W = Some (sub (of_Z (year now)) b) /\
  cell "years_since_renovation" i W
  = Some (if gtb r (Fin 0) then sub (of_Z (year now)) r else sub (of_Z (year now)) b) /\
  cell "has_basement" i W = Some (of_bool (gtb ba (Fin 0))) /\
  cell "is_renovated" i W = Some (of_bool (gtb r (Fin 0))) /\
  cell "has_waterfront" i W = Some x /\
  cell "living_to_lot_ratio" i W = Some (div la (add lo (Fin 1))) /\
  cell "basement_to_house_ratio" i W = Some (div ba (add h (Fin 1))).
Proof.
  intros Cb Cr Cba Cx Cla Clo Ch W. subst W.
  repeat split; derived_cell ltac:(unfold inference_derived).
  - rewrite list_lookup_fmap, Cb. reflexivity.
  - apply np_where_lookup; rewrite list_lookup_fmap; [rewrite Cr | rewrite Cr | rewrite Cb];
      reflexivity.
  - rewrite list_lookup_fmap, Cba. reflexivity.
  - rewrite list_lookup_fmap, Cr. reflexivity.
  - exact Cx.
  - apply zip_div_lookup; assumption.
  - apply zip_div_lookup; assumption.
Qed.

(** X14.  No skew in the derived features.  When a request carries, for
    the seven fields the derived features are computed from, the values of
    row [i] of the training set, and training and inference read the same
    year from the clock, the feature engineer of the service computes for
    the request the seven derived features that training computed for the
    row. *)
Theorem derived_features_agree (pd_numeric_str : string -> f64) (now : datetime)
    (df df' : frame) (feats : list string) (data : gmap string jvalue)
    (dfe : frame) (i : nat) :
  Training.create_features now df = Ok (df', feats) ->
  engineer_input pd_numeric_str now data = Ok dfe ->
  (forall k, In k derived_from ->
     exists v, data !! k = Some v /\
               cell k i (rename Training.column_mapping df)
               = Some (coerce pd_numeric_str v)) ->
  Forall (fun f => exists x, cell f i df' = Some x /\ cell f 0 dfe = Some x)
         derived_columns.
Proof.
  intros Htrain Hinf Hsame.
  destruct (Hsame "built_year" ltac:(unfold derived_from; in_table)) as (vb & Db & Cb).
  destruct (Hsame "renovation_year" ltac:(unfold derived_from; in_table)) as (vr & Dr & Cr).
  destruct (Hsame "basement_area" ltac:(unfold derived_from; in_table)) as (vba & Dba & Cba).
  destruct (Hsame "waterfront" ltac:(unfold derived_from; in_table)) as (vw & Dw & Cw).
  destruct (Hsame "living_area" ltac:(unfold derived_from; in_table)) as (vla & Dla & Cla).
  destruct (Hsame "lot_area" ltac:(unfold derived_from; in_table)) as (vlo & Dlo & Clo).
  destruct (Hsame "house_area" ltac:(unfold derived_from; in_table)) as (vh & Dh & Ch).
  clear Hsame.
  apply (find_input_frame pd_numeric_str "built_year" _ _ eq_refl) in Db.
  apply (find_input_frame pd_numeric_str "renovation_year" _ _ eq_refl) in Dr.
  apply (find_input_frame pd_numeric_str "basement_area" _ _ eq_refl) in Dba.
  apply (find_input_frame pd_numeric_str "waterfront" _ _ eq_refl) in Dw.
  apply (find_input_frame pd_numeric_str "living_area" _ _ eq_refl) in Dla.
  apply (find_input_frame pd_numeric_str "lot_area" _ _ eq_refl) in Dlo.
  apply (find_input_frame pd_numeric_str "house_area" _ _ eq_refl) in Dh.
  rewrite <- engineer_input_frame in Hinf.
  generalize dependent (input_frame pd_numeric_str data). intros df0. intros.
  apply engineer_frame_inv in Hinf.
  destruct Hinf as (built0 & reno0 & basement0 & water0 & hw0 & living0 & lot0 & house0
                    & ccat & gcat & vcat & rest
                    & Gb & Gr & Gba & Gw & Ghw & Gla & Glo & Gh & ->).
  apply get_num_inv in Gb, Gr, Gba, Gw, Gla, Glo, Gh.
  rewrite Db in Gb. rewrite Dr in Gr. rewrite Dba in Gba. rewrite Dw in Gw.
  rewrite Dla in Gla. rewrite Dlo in Glo. rewrite Dh in Gh.
  injection Gb as <-. injection Gr as <-. injection Gba as <-. injection Gw as <-.
  injection Gla as <-. injection Glo as <-. injection Gh as <-.
  apply create_features_frame in Htrain.
  destruct Htrain as (built & reno & basement & water & hw & living & lot & house & price
                      & cond & grade & views & l1 & l2 & l3
                      & Hb & Hr & Hba & Hw & Hhw & Hli & Hlo & Hh & _ & _ & _ & _ & -> & _).
  rewrite (get_num_cell _ _ _ i Hb) in Cb. rewrite (get_num_cell _ _ _ i Hr) in Cr.
  rewrite (get_num_cell _ _ _ i Hba) in Cba. rewrite (get_num_cell _ _ _ i Hw) in Cw.
  rewrite (get_num_cell _ _ _ i Hli) in Cla. rewrite (get_num_cell _ _ _ i Hlo) in Clo.
  rewrite (get_num_cell _ _ _ i Hh) in Ch.
  destruct (astype_int_lookup water hw i _ Hhw Cw) as (q & Hq & Chw).
  destruct (astype_int_lookup [coerce pd_numeric_str vw] hw0 0 _ Ghw eq_refl)
    as (q0 & Hq0 & Chw0).
  rewrite Hq in Hq0. injection Hq0 as <-.
  destruct (training_cells now built reno basement hw living lot house price
              (SCat ["Poor"; "Average"; "Good"] l1)
              (SCat ["Low"; "Medium"; "High"] l2)
              (SCat ["None"; "Some"; "Excellent"] l3)
              (rename Training.column_mapping df) (training_dummies l1 l2 l3) i
              _ _ _ _ _ _ _ Cb Cr Cba Chw Cla Clo Ch)
    as (T1 & T2 & T3 & T4 & T5 & T6 & T7).
  destruct (inference_cells now [coerce pd_numeric_str vb] [coerce pd_numeric_str vr]
              [coerce pd_numeric_str vba] hw0 [coerce pd_numeric_str vla]
              [coerce pd_numeric_str vlo] [coerce pd_numeric_str vh]
              ccat gcat vcat df0 rest 0
              _ _ _ _ _ _ _ eq_refl eq_refl eq_refl Chw0 eq_refl eq_refl eq_refl)
    as (I1 & I2 & I3 & I4 & I5 & I6 & I7).
  unfold derived_columns.
  apply List.Forall_cons; [eexists; split; [exact T1 | exact I1]|].
  apply List.Forall_cons; [eexists; split; [exact T2 | exact I2]|].
  apply List.Forall_cons; [eexists; split; [exact T3 | exact I3]|].
  apply List.Forall_cons; [eexists; split; [exact T4 | exact I4]|].
  apply List.Forall_cons; [eexists; split; [exact T5 | exact I5]|].
  apply List.Forall_cons; [eexists; split; [exact T6 | exact I6]|].
  apply List.Forall_cons; [eexists; split; [exact T7 | exact I7]|].
  apply List.Forall_nil.
Qed.

(** ** Validated requests ([predict] and [create_features_from_input],
    app.py) *)













Section ValidRequest.

Variable py_float_str : string -> option f64.
Variable pd_numeric_str : string -> f64.
Variable feature_names : list string.
Variable preprocessing_model_type : option string.
Variable metrics : gmap string f64.
Variable scaler_transform : frame -> result (list (list f64)).
Variable model_predict : list (list f64) -> result (list Q).

Hypothesis conversions_agree :
  forall s x, py_float_str s = Some x -> pd_numeric_str s = x.


Local Abbreviation handle :=
  (predict py_float_str pd_numeric_str feature_names preprocessing_model_type
           metrics scaler_transform model_predict).

(** *** Keys the service does not know *)


(** *** Ages *)


(** *** The metrics file *)

(** X17.  The metrics file decides after the prediction.  For a validated
    request whose three stages succeed, the answer is 200 exactly when the
    loaded metrics hold [r2_score], [mae] and [rmse] ([mape] may be
    absent); otherwise the lookup raises and the answer is 500.  In both
    cases the prediction has been computed, floored at 0 and logged. *)
Theorem metrics_decide_after_prediction (now : datetime) (data : gmap string jvalue)
    (X : frame) (X_scaled : list (list f64)) (raw : Q) (rest : list Q) :
  validated py_float_str data ->
  create_features_from_input pd_numeric_str feature_names now data = Ok X ->
  scaler_transform X = Ok X_scaled ->
  model_predict X_scaled = Ok (raw :: rest) ->
  (status (fst (handle now data)) = 200%Z <->
   is_Some (metrics !! "r2_score") /\ is_Some (metrics !! "mae")
   /\ is_Some (metrics !! "rmse"))
  /\ (status (fst (handle now data)) = 200%Z \/ status (fst (handle now data)) = 500%Z)
  /\ In (LogPredictionMade (if Qltb raw 0 then 0 else raw)) (snd (handle now data)).
Proof.
  intros Hv HX HXs Hm.
  rewrite (predict_validated py_float_str pd_numeric_str feature_names
             preprocessing_model_type metrics scaler_transform model_predict
             now data Hv).
  unfold run_pipeline. rewrite HX, HXs, Hm. unfold success, metric.
  destruct (metrics !! "r2_score") as [r2|];
    destruct (metrics !! "mae") as [mae|];
    destruct (metrics !! "rmse") as [rmse|];
    cbn [mbind result_bind fst snd status internal_error];
    (split; [split; [intros H; try discriminate H; repeat split; eexists; reflexivity
                    | intros (H1 & H2 & H3);
                      first [reflexivity
                            | destruct H1 as [? H1]; discriminate H1
                            | destruct H2 as [? H2]; discriminate H2
                            | destruct H3 as [? H3]; discriminate H3]]
            | split; [first [left; reflexivity | right; reflexivity]
                     | simpl; tauto]]).
Qed.

(** *** Values read as the same number *)




(** *** Finite features *)






End ValidRequest.

(** ** The reported metrics ([predict], app.py 179-192) *)




Section ReportedMetrics.

Variable py_float_str : string -> option f64.
Variable pd_numeric_str : string -> f64.
Variable feature_names : list string.
Variable preprocessing_model_type : option string.
Variable metrics : gmap string f64.
Variable scaler_transform : frame -> result (list (list f64)).
Variable model_predict : list (list f64) -> result (list Q).

Local Abbreviation handle :=
  (predict py_float_str pd_numeric_str feature_names preprocessing_model_type
           metrics scaler_transform model_predict).



End ReportedMetrics.


(** * The further properties on the sample data *)

Lemma housing_processed :
  Training.create_features (Sample.noon 2024) Sample.housing
  = Ok (fst sample_training, snd sample_training).
Proof. vm_compute. reflexivity. Qed.

Lemma feature_matrix_defined_witness :
  exists X,
    Training.feature_matrix (Sample.noon 2024) Sample.housing
    = Ok (X, snd sample_training) /\
    Forall (fun f => has_col f (fst sample_training) = true /\ has_col f X = true)
           (snd sample_training) /\
    Forall (fun c => In c (fst sample_training) /\ In (fst c) (snd sample_training)) X.
Proof.
  exact (feature_matrix_defined (Sample.noon 2024) Sample.housing
           (fst sample_training) (snd sample_training) housing_processed).
Defined.

Lemma no_target_leakage_witness :
  exists price,
    get_num "price" (rename Training.column_mapping Sample.housing) = Ok price /\
    target (fst sample_training) = Ok (SNum price) /\
    Forall (fun f => f <> "price" /\ f <> "price_per_sqft" /\
                     (In f Training.feature_columns \/
                      exists cat, In cat categorical_columns /\ contains cat f = true))
           (snd sample_training).
Proof.
  exact (no_target_leakage (Sample.noon 2024) Sample.housing
           (fst sample_training) (snd sample_training) housing_processed).
Defined.

Example sample_target :
  target (fst sample_training) = Ok (SNum [Fin 350000; Fin 1250000]).
Proof. vm_compute. reflexivity. Qed.


Example sample_training_row :
  (cell "age" 1 (fst sample_training),
   cell "years_since_renovation" 1 (fst sample_training),
   cell "living_to_lot_ratio" 1 (fst sample_training),
   cell "price_per_sqft" 1 (fst sample_training))
  = (Some (Fin (19 # 1)), Some (Fin (9 # 1)), Some (Fin (3200 # 9001)),
     Some (Fin (1250000 # 3201))).
Proof. vm_compute. reflexivity. Qed.

Lemma housing_columns_distinct :
  NoDup (columns (rename Training.column_mapping Sample.housing)).
Proof. refine (@bool_decide_unpack _ (NoDup_dec _) _). vm_compute. exact I. Qed.

Lemma housing_passes_on :
  Forall (fun f => has_col f (rename Training.column_mapping Sample.housing) = true)
         passed_through.
Proof. repeat (apply List.Forall_cons; [reflexivity|]). apply List.Forall_nil. Qed.

Lemma housing_names_plain :
  Forall (fun c => existsb (fun cat => contains cat c) categorical_columns = false)
         (columns (rename Training.column_mapping Sample.housing)).
Proof. repeat (apply List.Forall_cons; [reflexivity|]). apply List.Forall_nil. Qed.

Lemma canonical_feature_list_witness :
  snd sample_training = Sample.feature_names /\
  exists X,
    Training.feature_matrix (Sample.noon 2024) Sample.housing
    = Ok (X, snd sample_training) /\
    columns X = Sample.feature_names.
Proof.
  exact (canonical_feature_list (Sample.noon 2024) Sample.housing
           (fst sample_training) (snd sample_training) housing_processed
           housing_columns_distinct housing_passes_on housing_names_plain).
Defined.

Lemma housing_without_rows_empty :
  Forall (fun k => get_num k (rename Training.column_mapping housing_without_rows) = Ok [])
         computed_from.
Proof. repeat (apply List.Forall_cons; [reflexivity|]). apply List.Forall_nil. Qed.

Lemma empty_training_set_fails_witness :
  Training.create_features (Sample.noon 2024) housing_without_rows
  = Raise (Exn ValueError "Cannot cut empty array").
Proof.
  exact (empty_training_set_fails (Sample.noon 2024) housing_without_rows
           housing_without_rows_empty).
Defined.

Lemma absent_column_witness :
  (In "bedrooms" computed_from ->
   exists e, Training.create_features (Sample.noon 2024) housing_without_bedrooms = Raise e) /\
  (In "bedrooms" passed_through ->
   forall df' feats,
     Training.create_features (Sample.noon 2024) housing_without_bedrooms = Ok (df', feats) ->
     ~ In "bedrooms" feats).
Proof.
  exact (absent_column (Sample.noon 2024) housing_without_bedrooms "bedrooms" eq_refl).
Defined.

(** Training on the set without its bedrooms column succeeds, with 29
    features; training on the set without its built year raises. *)
Example training_without_bedrooms :
  (p ← Training.create_features (Sample.noon 2024) housing_without_bedrooms;
   Ok (length (snd p), existsb (String.eqb "bedrooms") (snd p)))
  = Ok (29%nat, false)
  /\ Training.create_features (Sample.noon 2024) (drop_cols ["Built Year"] Sample.housing)
     = key_error "built_year".
Proof. split; vm_compute; reflexivity. Qed.



Lemma oversized_integer_is_server_error_witness :
  Sample.serve (Sample.constant_model 350000) (Sample.noon 2024) request_with_huge_bedrooms
  = ({| status := 500;
        payload := ErrorBody "Internal server error: int too large to convert to float" |},
     [LogError "Prediction error: int too large to convert to float"; PrintTraceback]).
Proof.
  refine (oversized_integer_is_server_error
            Sample.float_of_digits Sample.numeric_of_digits Sample.feature_names
            (Some "RandomForestRegressor") Sample.metrics
            (Sklearn.transform (Sample.unit_scaler 30)) (Sample.constant_model 350000)
            (Sample.noon 2024) request_with_huge_bedrooms
            [] (skipn 1 validations) "bedrooms" 0 20 (10 ^ 400) _ _ _ _ _ _).
  - apply (sample_nonempty "floors" (JInt 1)). vm_compute. reflexivity.
  - vm_compute. reflexivity.
  - reflexivity.
  - apply List.Forall_nil.
  - vm_compute. reflexivity.
  - apply Z.leb_le. vm_compute. reflexivity.
Defined.



Example comment_changes_no_refusal :
  Sample.serve (Sample.constant_model 350000) (Sample.noon 2024)
    (<["comment" := JStr "near the lake"]> request_without_two)
  = (bad_request "Missing required fields: bedrooms, grade", []).
Proof. vm_compute. reflexivity. Qed.


Example sample_derived :
  (df ← engineer_input Sample.numeric_of_digits (Sample.noon 2024) Sample.request;
   Ok (cell "age" 0 df, cell "years_since_renovation" 0 df, cell "has_basement" 0 df,
       cell "is_renovated" 0 df, cell "has_waterfront" 0 df))
  = Ok (Some (Fin 34), Some (Fin 34), Some (Fin 0), Some (Fin 0), Some (Fin 0)).
Proof. vm_compute. reflexivity. Qed.


Lemma request_engineered :
  engineer_input Sample.numeric_of_digits (Sample.noon 2024) Sample.request
  = Ok sample_engineered.
Proof. vm_compute. reflexivity. Qed.

(** The sample request carries the values of the first row of the set. *)
Lemma request_is_first_row (k : string) :
  In k derived_from ->
  exists v, Sample.request !! k = Some v /\
            cell k 0 (rename Training.column_mapping Sample.housing)
            = Some (coerce Sample.numeric_of_digits v).
Proof.
  intros Hk. unfold derived_from in Hk. simpl in Hk.
  decompose [or] Hk; try contradiction; subst k;
    match goal with
    | |- exists v, ?d !! ?k = Some v /\ _ =>
        let r := eval vm_compute in (d !! k) in
        match r with Some ?v => exists v end
    end; split; vm_compute; reflexivity.
Qed.

Lemma derived_features_agree_witness :
  Forall (fun f => exists x, cell f 0 (fst sample_training) = Some x /\
                             cell f 0 sample_engineered = Some x)
         derived_columns.
Proof.
  exact (derived_features_agree Sample.numeric_of_digits (Sample.noon 2024)
           Sample.housing (fst sample_training) (snd sample_training)
           Sample.request sample_engineered 0
           housing_processed request_engineered request_is_first_row).
Defined.





(** In 2023 a house built in 2024 passes validation and gets the age -1. *)
Example age_negative_before_2024 :
  check_ranges Sample.float_of_digits (<["built_year" := JInt 2024]> Sample.request)
    validations = Pass
  /\ (df ← engineer_input Sample.numeric_of_digits (Sample.noon 2023)
             (<["built_year" := JInt 2024]> Sample.request);
      Ok (cell "age" 0 df)) = Ok (Some (Fin (-1))).
Proof. split; vm_compute; reflexivity. Qed.

Lemma request_features :
  create_features_from_input Sample.numeric_of_digits Sample.feature_names
    (Sample.noon 2024) Sample.request = Ok sample_features.
Proof. vm_compute. reflexivity. Qed.

Lemma request_scaled :
  Sklearn.transform (Sample.unit_scaler 30) sample_features = Ok sample_scaled.
Proof. vm_compute. reflexivity. Qed.

Lemma metrics_decide_after_prediction_witness :
  (status (fst (Sample.serve (Sample.constant_model 350000) (Sample.noon 2024)
                  Sample.request)) = 200%Z <->
   is_Some (Sample.metrics !! "r2_score") /\ is_Some (Sample.metrics !! "mae")
   /\ is_Some (Sample.metrics !! "rmse"))
  /\ (status (fst (Sample.serve (Sample.constant_model 350000) (Sample.noon 2024)
                     Sample.request)) = 200%Z
      \/ status (fst (Sample.serve (Sample.constant_model 350000) (Sample.noon 2024)
                        Sample.request)) = 500%Z)
  /\ In (LogPredictionMade (if Qltb 350000 0 then 0 else 350000))
        (snd (Sample.serve (Sample.constant_model 350000) (Sample.noon 2024)
                Sample.request)).
Proof.
  exact (metrics_decide_after_prediction
           Sample.float_of_digits Sample.numeric_of_digits Sample.feature_names
           (Some "RandomForestRegressor") Sample.metrics
           (Sklearn.transform (Sample.unit_scaler 30)) (Sample.constant_model 350000)
           (Sample.noon 2024) Sample.request sample_features sample_scaled 350000 []
           request_validated request_features request_scaled eq_refl).
Defined.

(** With a metrics file that lacks [mae] the same request is answered 500
    after the price has been logged. *)
Example metrics_without_mae_fail :
  predict Sample.float_of_digits Sample.numeric_of_digits Sample.feature_names
    (Some "RandomForestRegressor") metrics_without_mae
    (Sklearn.transform (Sample.unit_scaler 30)) (Sample.constant_model 350000)
    (Sample.noon 2024) Sample.request
  = ({| status := 500; payload := ErrorBody "Internal server error: 'mae'" |},
     [Call CreateFeatures; Call ScalerTransform; Call ModelPredict;
      LogPredictionMade 350000; LogError "Prediction error: 'mae'"; PrintTraceback]).
Proof. vm_compute. reflexivity. Qed.



(** The stored r2_score 0.87654321 is reported as 0.8765. *)
Example sample_r2_rounded :
  py_round (Fin (87654321 # 100000000)) 4 = Fin (8765 / 10000).
Proof. reflexivity. Qed.




(** A latitude of JSON [null] passes validation and reaches the scaler as
    [nan]. *)
Example null_latitude_reaches_scaler :
  (X ← create_features_from_input Sample.numeric_of_digits Sample.feature_names
         (Sample.noon 2024) (<["latitude" := JNull]> Sample.request);
   Ok (cell "latitude" 0 X)) = Ok (Some NaN).
Proof. vm_compute. reflexivity. Qed.
